(** * Recipe catalogue: difficulty classification, ingredient parsing,
      wildcard search and result aggregation

    A shallow embedding of [recipes/models.py] and [recipes/views.py].

    Python [str] values are lists of characters.  A character is an
    [ascii], read as the code point U+0000..U+00FF.  Python [int] is [Z],
    [len] is a [nat].  A value that may be [None] is an [option]. *)

From Stdlib Require Import Ascii String ZArith Bool Lia DecimalString.
From stdpp Require Import base list gmap.

Local Open Scope Z_scope.
Local Open Scope nat_scope.
Local Open Scope list_scope.

(** ** Python strings *)

Module PyStr.

Definition str := list ascii.

(** A literal: [lit "Easy"] is the Python string ['Easy']. *)
Definition lit (s : string) : str := list_ascii_of_string s.
Arguments lit s%_string.

Definition code (c : ascii) : nat := nat_of_ascii c.

(** [str.isspace] on one character, for the code points below 256:
    TAB..CR, FS..US, SPACE, NEL and NBSP. *)
Definition isspace (c : ascii) : bool :=
  let n := code c in
  ((9 <=? n) && (n <=? 13)) || ((28 <=? n) && (n <=? 32))
  || (n =? 133) || (n =? 160).

(** Truth value of a string: the empty string is falsy. *)
Definition truthy (s : str) : bool :=
  match s with [] => false | _ :: _ => true end.

Fixpoint lstrip (s : str) : str :=
  match s with
  | [] => []
  | c :: s' => if isspace c then lstrip s' else s
  end.

Definition rstrip (s : str) : str := rev (lstrip (rev s)).

(** [s.strip()] *)
Definition strip (s : str) : str := rstrip (lstrip s).

(** [s.split(sep)] for a separator of one character. *)
Fixpoint split (sep : ascii) (s : str) : list str :=
  match s with
  | [] => [[]]
  | c :: s' =>
      if Ascii.eqb c sep then [] :: split sep s'
      else match split sep s' with
           | seg :: segs => (c :: seg) :: segs
           | [] => [[c]]
           end
  end.

(** [sep.join(segs)] for a separator of one character. *)
Fixpoint join (sep : ascii) (segs : list str) : str :=
  match segs with
  | [] => []
  | [seg] => seg
  | seg :: rest => seg ++ sep :: join sep rest
  end.

(** [c in s] for a single character [c]. *)
Definition char_in (c : ascii) (s : str) : bool := existsb (Ascii.eqb c) s.

(** [s.replace(old, new)] for an [old] of one character. *)
Definition replace (old : ascii) (new : str) (s : str) : str :=
  flat_map (fun c => if Ascii.eqb c old then new else [c]) s.

(** A string made of whitespace only (the empty string included). *)
Definition blank (s : str) : bool := forallb isspace s.

(** No whitespace at either end. *)
Definition trimmed (s : str) : Prop :=
  (forall c s', s = c :: s' -> isspace c = false)
  /\ (forall c s', s = s' ++ [c] -> isspace c = false).

End PyStr.
Import PyStr.

(** ** The Recipe model ([recipes/models.py]) *)

Record Recipe : Type := mkRecipe {
  id : option nat;
  name : str;
  short_description : str;
  ingredients : option str;
  cooking_time : Z;
  difficulty : option str;
  likes : Z;
  comments : str;
  references : str;
  recipe_image : str
}.

(** [Recipe.return_ingredients_as_list] *)
Definition return_ingredients_as_list (self : Recipe) : list str :=
  match ingredients self with
  | None => []
  | Some s =>
      if negb (truthy s) || negb (truthy (strip s)) then []
      else map strip
             (List.filter (fun ingredient => truthy (strip ingredient))
                          (split ","%char s))
  end.

(** The four-way [if]/[elif] chain of [Recipe.calculate_difficulty] on the
    cooking time and the number of ingredients.  The chain has no [else]:
    falling through all four tests returns [None]. *)
Definition difficulty_of (cooking_time : Z) (num_ingredients : nat)
  : option str :=
  if (cooking_time <? 10)%Z && (num_ingredients <? 4) then
    Some (lit "Easy")
  else if (cooking_time <? 10)%Z && (4 <=? num_ingredients) then
    Some (lit "Medium")
  else if (10 <=? cooking_time)%Z && (num_ingredients <? 4) then
    Some (lit "Intermediate")
  else if (10 <=? cooking_time)%Z && (4 <=? num_ingredients) then
    Some (lit "Hard")
  else None.

(** [Recipe.calculate_difficulty] *)
Definition calculate_difficulty (self : Recipe) : option str :=
  let ingredients_list := return_ingredients_as_list self in
  let num_ingredients := length ingredients_list in
  difficulty_of (cooking_time self) num_ingredients.

(** ** Exceptions *)

Inductive exn : Type := ValueError | IntegrityError.

Inductive result (A : Type) : Type :=
| Ok (a : A)
| Raise (e : exn).
Arguments Ok {A} a.
Arguments Raise {A} e.

(** ** The record store

    The database and Django's field lookups are outside the repository.
    They are modelled here as far as the views use them:
    [icontains], [iregex], [lte] and [exact] on one table. *)

Module Store.

(** Case folding of the store's case-insensitive lookups: the letters
    A..Z and a..z are identified, every other character is itself. *)
Definition lower (c : ascii) : ascii :=
  let n := code c in
  if (65 <=? n) && (n <=? 90) then ascii_of_nat (n + 32) else c.

Definition eq_ci (a b : ascii) : bool := Ascii.eqb (lower a) (lower b).

Fixpoint tails (s : str) : list str :=
  s :: match s with [] => [] | _ :: s' => tails s' end.

Fixpoint prefix_ci (t s : str) : bool :=
  match t, s with
  | [], _ => true
  | _ :: _, [] => false
  | a :: t', b :: s' => eq_ci a b && prefix_ci t' s'
  end.

(** [field__icontains=t]: [t] occurs in [s], letter case ignored. *)
Definition icontains (t s : str) : bool := existsb (prefix_ci t) (tails s).

(** *** Regular expressions

    The fragment of the regular-expression syntax that every engine
    reads the same way: a character without a special meaning stands
    for itself, [.] for one character, and a [*] repeats the character
    or [.] before it zero or more times.  A pattern that uses another
    special character, or a [*] with nothing to repeat, is outside the
    fragment and [compile] returns [None] for it. *)

Inductive atom : Type := Lit (c : ascii) | Dot.

Record piece : Type := mkPiece { p_atom : atom; p_star : bool }.

Definition regex := list piece.

Definition is_meta (c : ascii) : bool := char_in c (lit "\^$+?()[]{}|").

Fixpoint compile (p : str) : option regex :=
  match p with
  | [] => Some []
  | c :: p' =>
      if Ascii.eqb c "*" || is_meta c then None
      else
        let a := if Ascii.eqb c "." then Dot else Lit c in
        match p' with
        | [] => Some [mkPiece a false]
        | c' :: p'' =>
            if Ascii.eqb c' "*"
            then option_map (cons (mkPiece a true)) (compile p'')
            else option_map (cons (mkPiece a false)) (compile p')
        end
  end.

Definition newline : ascii := ascii_of_nat 10.

(** [dotall] says whether the engine lets [.] match a newline
    (PostgreSQL does; Python's [re], which SQLite is given, does not). *)
Definition atom_ok (dotall : bool) (a : atom) (c : ascii) : bool :=
  match a with
  | Lit l => eq_ci l c
  | Dot => dotall || negb (Ascii.eqb c newline)
  end.

(** Some prefix of [s] matches [re]. *)
Fixpoint match_here (dotall : bool) (re : regex) (s : str) : bool :=
  match re with
  | [] => true
  | p :: re' =>
      if p_star p then
        (fix star (s : str) : bool :=
           match_here dotall re' s
           || match s with
              | [] => false
              | c :: s' => atom_ok dotall (p_atom p) c && star s'
              end) s
      else
        match s with
        | [] => false
        | c :: s' => atom_ok dotall (p_atom p) c && match_here dotall re' s'
        end
  end.

(** [field__iregex]: an unanchored search, letter case ignored. *)
Definition re_search (dotall : bool) (re : regex) (s : str) : bool :=
  existsb (match_here dotall re) (tails s).

Fixpoint str_eqb (a b : str) : bool :=
  match a, b with
  | [], [] => true
  | x :: a', y :: b' => Ascii.eqb x y && str_eqb a' b'
  | _, _ => false
  end.

(** The keyword arguments [recipes/views.py] passes to [filter], and its
    [Q] objects. *)
Inductive cond : Type :=
| name__iregex (pattern : str)
| name__icontains (term : str)
| ingredients__iregex (pattern : str)
| ingredients__icontains (term : str)
| cooking_time__lte (n : Z)
| difficulty__exact (d : str).

(** A queryset over the recipe table: the conditions of the chained
    [filter] calls, oldest first.  [[]] is [Recipe.objects.all()]. *)
Definition QuerySet := list cond.

Definition supported (c : cond) : bool :=
  match c with
  | name__iregex p | ingredients__iregex p =>
      match compile p with Some _ => true | None => false end
  | _ => true
  end.

Definition iregex (dotall : bool) (p : str) (s : str) : bool :=
  match compile p with
  | Some re => re_search dotall re s
  | None => false
  end.

(** Whether a row satisfies a condition.  A NULL column satisfies no
    lookup. *)
Definition holds (dotall : bool) (c : cond) (r : Recipe) : bool :=
  match c with
  | name__iregex p => iregex dotall p (name r)
  | name__icontains t => icontains t (name r)
  | ingredients__iregex p =>
      match ingredients r with Some s => iregex dotall p s | None => false end
  | ingredients__icontains t =>
      match ingredients r with Some s => icontains t s | None => false end
  | cooking_time__lte n => (cooking_time r <=? n)%Z
  | difficulty__exact d =>
      match difficulty r with Some x => str_eqb x d | None => false end
  end.

(** Running a queryset on the rows of the table, in the table's order.
    [None] when a pattern of the queryset is outside the modelled
    fragment of regular expressions. *)
Definition run (dotall : bool) (table : list Recipe) (qs : QuerySet)
  : option (list Recipe) :=
  if forallb supported qs
  then Some (List.filter (fun r => forallb (fun c => holds dotall c r) qs) table)
  else None.


End Store.
Import Store.





(** ** The search view ([recipes/views.py]) *)

(** [process_wildcard_search] *)
Definition process_wildcard_search (search_term : option str) : option cond :=
  match search_term with
  | None => None
  | Some t =>
      if negb (truthy t) then None
      else
        let search_term := strip t in
        if char_in "*" search_term || char_in "?" search_term then
          let pattern :=
            replace "?" (lit ".") (replace "*" (lit ".*") search_term) in
          Some (name__iregex pattern)
        else Some (name__icontains search_term)
  end.

(** Python's [int(s)] on a string: surrounding whitespace is dropped, then
    an optional sign and decimal digits, where single underscores may
    separate digits.  [None] stands for [ValueError]. *)
Definition digit_val (c : ascii) : option Z :=
  let n := code c in
  if (48 <=? n) && (n <=? 57) then Some (Z.of_nat (n - 48)) else None.

Fixpoint digits (acc : Z) (after_digit : bool) (s : str) : option Z :=
  match s with
  | [] => if after_digit then Some acc else None
  | c :: s' =>
      if Ascii.eqb c "_" then
        if after_digit then digits acc false s' else None
      else
        match digit_val c with
        | Some d => digits (10 * acc + d)%Z true s'
        | None => None
        end
  end.

Definition int (s : str) : option Z :=
  match strip s with
  | [] => None
  | c :: s' =>
      if Ascii.eqb c "-" then option_map Z.opp (digits 0%Z false s')
      else if Ascii.eqb c "+" then digits 0%Z false s'
      else digits 0%Z false (c :: s')
  end.

(** The fields of [request.POST] that the view reads; [None] is a key
    that was not posted. *)
Module Post.
Record t : Type := mk {
  search_action : option str;
  recipe_name : option str;
  ingredients : option str;
  cooking_time_max : option str;
  difficulty : option str
}.
End Post.

Definition is_search (action : option str) : bool :=
  match action with
  | Some a => str_eqb a (lit "search")
  | None => false
  end.

(** The list [ingredient_list] that the view makes of the posted
    ingredients. *)
Definition ingredient_list (ingredients : str) : list str :=
  map strip
    (List.filter (fun ingredient => truthy (strip ingredient))
                 (split "," ingredients)).

(** One turn of the loop over [ingredient_list]. *)
Definition filter_ingredient (qs : QuerySet) (ingredient : str) : QuerySet :=
  if char_in "*" ingredient || char_in "?" ingredient then
    let pattern := replace "?" (lit ".") (replace "*" (lit ".*") ingredient) in
    qs ++ [ingredients__iregex pattern]
  else qs ++ [ingredients__icontains ingredient].

(** [recipe_search], from "Start with all recipes" to the end of the
    filters: the queryset that the request asks for. *)
Definition recipe_search_queryset (post : Post.t) : result QuerySet :=
  let qs : QuerySet := [] in
  if is_search (Post.search_action post) then
    let qs :=
      match Post.recipe_name post with
      | Some recipe_name =>
          if truthy recipe_name then
            match process_wildcard_search (Some recipe_name) with
            | Some name_query => qs ++ [name_query]
            | None => qs
            end
          else qs
      | None => qs
      end in
    let qs :=
      match Post.ingredients post with
      | Some ingredients =>
          if truthy ingredients then
            fold_left filter_ingredient (ingredient_list ingredients) qs
          else qs
      | None => qs
      end in
    match
      match Post.cooking_time_max post with
      | Some cooking_time_max =>
          if truthy cooking_time_max then
            match int cooking_time_max with
            | Some n => Ok (qs ++ [cooking_time__lte n])
            | None => Raise ValueError
            end
          else Ok qs
      | None => Ok qs
      end
    with
    | Raise e => Raise e
    | Ok qs =>
        match Post.difficulty post with
        | Some difficulty =>
            if truthy difficulty then Ok (qs ++ [difficulty__exact difficulty])
            else Ok qs
        | None => Ok qs
        end
    end
  else Ok qs.

(** [str(x)] for a primary key. *)
Definition str_of_id (x : option nat) : str :=
  match x with
  | None => lit "None"
  | Some n => lit (NilZero.string_of_uint (Nat.to_uint n))
  end.

(** A dictionary of [recipes_data]. *)
Record Row : Type := mkRow {
  row_id : option nat;
  row_name : str;
  row_cooking_time : Z;
  row_difficulty : option str;
  row_ingredients : option str;
  row_ingredient_count : nat;
  row_short_description : str;
  row_recipe_image_url : str;
  row_detail_url : str
}.

(** The ingredient count as the view computes it, in line. *)
Definition ingredient_count (recipe : Recipe) : nat :=
  match ingredients recipe with
  | Some s =>
      if truthy s then
        length (map strip
                  (List.filter (fun ing => truthy (strip ing)) (split "," s)))
      else 0
  | None => 0
  end.

Definition recipe_row (recipe : Recipe) : Row :=
  mkRow (id recipe) (name recipe) (cooking_time recipe) (difficulty recipe)
        (ingredients recipe) (ingredient_count recipe)
        (short_description recipe)
        (lit "/static/images/" ++ recipe_image recipe)
        (lit "/recipes/" ++ str_of_id (id recipe) ++ lit "/").

(** [recipe_search], "Convert QuerySet to list of dictionaries if we have
    results": the value of [recipes] for the records of the queryset.
    [recipes] starts as [None] and is assigned only when the queryset has
    a record. *)
Definition recipe_search_rows (qs : list Recipe) : option (list Row) :=
  match qs with
  | [] => None
  | _ :: _ => Some (map recipe_row qs)
  end.

(** What a POST to the view leaves for the page: the rows, or [None] when
    nothing was found.  Drawing the charts is not modelled. *)
Inductive outcome : Type :=
| Rendered (recipes : option (list Row))
| Crashed (e : exn)
| Unmodelled.

Definition recipe_search (dotall : bool) (table : list Recipe) (post : Post.t)
  : outcome :=
  match recipe_search_queryset post with
  | Raise e => Crashed e
  | Ok qs =>
      match run dotall table qs with
      | None => Unmodelled
      | Some found => Rendered (recipe_search_rows found)
      end
  end.

(** ** Wildcard matching as the help text words it

    "Use * for any characters, ? for single character": [*] stands for any
    sequence of zero or more characters, [?] for exactly one character,
    every other character for itself, letter case ignored.  The pattern may
    match anywhere in the target. *)



(** A character of a search term that the regular-expression engine reads
    as the wildcard translation intends: a wildcard, or a character
    without a special meaning in a pattern. *)
Definition plain_or_wildcard (c : ascii) : bool :=
  Ascii.eqb c "*" || Ascii.eqb c "?"
  || (negb (is_meta c) && negb (Ascii.eqb c ".")).

(** What the two [replace] calls of the translation put for one character
    of the term, and the piece of a regular expression it stands for. *)
Definition tr (c : ascii) : str :=
  if Ascii.eqb c "*" then lit ".*"
  else if Ascii.eqb c "?" then lit "." else [c].

Definition glob_piece (c : ascii) : piece :=
  if Ascii.eqb c "*" then mkPiece Dot true
  else if Ascii.eqb c "?" then mkPiece Dot false
  else mkPiece (Lit c) false.


(** The condition that one ingredient of the search adds. *)
Definition ingredient_cond (ingredient : str) : cond :=
  if char_in "*" ingredient || char_in "?" ingredient
  then ingredients__iregex
         (replace "?" (lit ".") (replace "*" (lit ".*") ingredient))
  else ingredients__icontains ingredient.

(** [m] occurs in [s] as a substring, letter case ignored. *)
Definition occurs_ci (m s : str) : Prop :=
  exists a m' b, s = a ++ m' ++ b /\ map lower m' = map lower m.

(** ** Sample data *)

Definition recipe_named (n : str) : Recipe :=
  mkRecipe None n [] None 0%Z None 0%Z [] [] (lit "recipes/no_picture.png").


Definition recipe_of (k : nat) (n ings : string) (t : Z) (d : string) : Recipe :=
  mkRecipe (Some k) (lit n) [] (Some (lit ings)) t (Some (lit d)) 0%Z [] []
           (lit "recipes/no_picture.png").

Definition pasta_al_pesto : Recipe :=
  recipe_of 1 "Pasta al Pesto" "pasta, pesto, cheese, garlic" 10 "Hard".
Definition pizza_margherita : Recipe :=
  recipe_of 2 "Pizza Margherita" "dough, tomato, cheese, basil" 5 "Medium".
Definition summer_salad : Recipe :=
  recipe_of 3 "Summer Salad" "lettuce, tomato, cucumber, olive oil" 15 "Hard".

Definition sample_table : list Recipe :=
  [pasta_al_pesto; pizza_margherita; summer_salad].

Definition labels : list str :=
  [lit "Easy"; lit "Medium"; lit "Intermediate"; lit "Hard"].


(** ** Validation ([recipes/models.py]) *)

(** The outcome of a validation: passed, or a [ValidationError] with the
    field it is about and its message. *)
Inductive checked : Type :=
| Valid
| Invalid (field message : str).

(** [Recipe.clean].  [super().clean()] does nothing for this model. *)
Definition clean (self : Recipe) : checked :=
  if match ingredients self with
     | None => true
     | Some s => negb (truthy s) || negb (truthy (strip s))
     end
  then Invalid (lit "ingredients") (lit "Ingredients cannot be empty.")
  else if negb (truthy (name self)) || negb (truthy (strip (name self)))
  then Invalid (lit "name") (lit "Recipe name cannot be empty.")
  else if (cooking_time self <=? 0)%Z
  then Invalid (lit "cooking_time") (lit "Cooking time must be greater than 0.")
  else Valid.

(** The validators of the [cooking_time] field, [MinValueValidator(1)] and
    [MaxValueValidator(1440)]: the messages of those that reject [value]. *)
Definition cooking_time_validators (value : Z) : list str :=
  (if (value <? 1)%Z
   then [lit "Cooking time must be at least 1 minute"] else [])
  ++ (if (1440 <? value)%Z
      then [lit "Cooking time cannot exceed 24 hours (1440 minutes)"]
      else []).

(** ** Template filters ([recipes/templatetags/recipe_extras.py]) *)

Module RecipeExtras.

(** [s.startswith(p)] *)
Fixpoint startswith (p s : str) : bool :=
  match p, s with
  | [], _ => true
  | _ :: _, [] => false
  | a :: p', b :: s' => Ascii.eqb a b && startswith p' s'
  end.

(** [s.split(sep)] for a separator that is not empty: the leftmost
    occurrences of [sep] that do not overlap cut the string.  [skip]
    counts the characters of an occurrence still to pass. *)
Fixpoint split_by (sep : str) (skip : nat) (s : str) : list str :=
  match s with
  | [] => [[]]
  | c :: s' =>
      match skip with
      | S k => split_by sep k s'
      | O =>
          if startswith sep s then [] :: split_by sep (length sep - 1) s'
          else match split_by sep 0 s' with
               | seg :: segs => (c :: seg) :: segs
               | [] => [[c]]
               end
      end
  end.

(** The filter [split]; an empty delimiter makes [str.split] raise
    [ValueError]. *)
Definition split (value : str) (delimiter : str) : result (list str) :=
  match delimiter with
  | [] => Raise ValueError
  | _ :: _ =>
      Ok (map strip
            (List.filter (fun item => truthy (strip item))
                         (split_by delimiter 0 value)))
  end.

(** The filter [media_to_static].  [static] is Django's function of that
    name, which turns a path below the static root into a URL. *)
Definition media_to_static (static : str -> str) (image_path : str) : str :=
  if negb (truthy image_path) then static (lit "images/no_picture.png")
  else
    let path_str := image_path in
    if startswith (lit "http") path_str || startswith (lit "/static") path_str
    then path_str
    else static (lit "images/" ++ path_str).

End RecipeExtras.

(** ** Colour schemes ([recipes/utils.py]) *)

Record Scheme : Type := mkScheme {
  bar_colors : list str;
  pie_colors : gmap str str;
  line_color : str;
  marker_color : str
}.

Definition pie (easy medium intermediate hard : string) : gmap str str :=
  <[lit "Easy" := lit easy]>
    (<[lit "Medium" := lit medium]>
       (<[lit "Intermediate" := lit intermediate]>
          (<[lit "Hard" := lit hard]> ∅))).

Definition scheme_default : Scheme :=
  mkScheme
    (map lit ["#FF6B6B"; "#4ECDC4"; "#45B7D1"; "#96CEB4"; "#FFEAA7";
              "#DDA0DD"; "#98D8C8"]%string)
    (pie "#90EE90" "#FFD700" "#FF8C00" "#FF4500")
    (lit "#2E86AB") (lit "#A23B72").

Definition scheme_pastel : Scheme :=
  mkScheme
    (map lit ["#FFB3BA"; "#FFDFBA"; "#FFFFBA"; "#BAFFC9"; "#BAE1FF";
              "#E1BAFF"; "#FFBAE1"]%string)
    (pie "#B8E6B8" "#FFE4B5" "#FFB5B5" "#D4A5FF")
    (lit "#87CEEB") (lit "#DDA0DD").

Definition scheme_brand : Scheme :=
  mkScheme
    (map lit ["#f37f20"; "#6fc3aa"; "#a9c57c"; "#c0a659"; "#d7b25b"]%string)
    (pie "#c0a659" "#a9c57c" "#6fc3aa" "#f37f20")
    (lit "#f37f20") (lit "#6fc3aa").

Definition scheme_monochrome : Scheme :=
  mkScheme
    (map lit ["#2C3E50"; "#34495E"; "#7F8C8D"; "#95A5A6"; "#BDC3C7";
              "#D5DBDB"; "#ECF0F1"]%string)
    (pie "#27AE60" "#F39C12" "#E67E22" "#E74C3C")
    (lit "#2C3E50") (lit "#E74C3C").

Definition COLOR_SCHEMES : gmap str Scheme :=
  <[lit "default" := scheme_default]>
    (<[lit "pastel" := scheme_pastel]>
       (<[lit "brand" := scheme_brand]>
          (<[lit "monochrome" := scheme_monochrome]> ∅))).

(** [get_color_scheme] *)
Definition get_color_scheme (scheme_name : str) : Scheme :=
  default scheme_default (COLOR_SCHEMES !! scheme_name).

(** The colour of one slice of the pie chart:
    [color_scheme["pie_colors"].get(level, "#CCCCCC")]. *)
Definition pie_color (color_scheme : Scheme) (level : str) : str :=
  default (lit "#CCCCCC") (pie_colors color_scheme !! level).


(** ** The search view with its session ([recipes/views.py]) *)

Module View.

(** The dictionary stored under ['search_form_data']: the posted values
    as they came. *)
Record FormData : Type := mkFormData {
  fd_recipe_name : option str;
  fd_ingredients : option str;
  fd_cooking_time_max : option str;
  fd_difficulty : option str
}.

(** The values this view keeps in the session.  [Charts] is the type of
    the dictionary of the three drawn charts. *)
Inductive svalue (Charts : Type) : Type :=
| VRecipes (recipes : list Row)
| VCharts (charts : Charts)
| VForm (form_data : FormData).
Arguments VRecipes {Charts} recipes.
Arguments VCharts {Charts} charts.
Arguments VForm {Charts} form_data.

Inductive request : Type :=
| GET
| POST (post : Post.t).

(** The form handed to the template: not bound to any data, or carrying
    initial values ([None] for the empty dictionary). *)
Inductive form_state (Charts : Type) : Type :=
| Unbound
| Initial (form_data : option (svalue Charts)).
Arguments Unbound {Charts}.
Arguments Initial {Charts} form_data.

(** A redirect to this view's own address with a fragment, or the page
    rendered with the context [form], [recipes], [charts]. *)
Inductive response (Charts : Type) : Type :=
| Redirect (fragment : str)
| Render (form : form_state Charts)
         (recipes : option (svalue Charts))
         (charts : option (svalue Charts)).
Arguments Redirect {Charts} fragment.
Arguments Render {Charts} form recipes charts.

Inductive view_result (A : Type) : Type :=
| Returned (a : A)
| Failed (e : exn)
| KeyError
| Outside_model.
Arguments Returned {A} a.
Arguments Failed {A} e.
Arguments KeyError {A}.
Arguments Outside_model {A}.

Definition search_recipes : str := lit "search_recipes".
Definition search_charts : str := lit "search_charts".
Definition search_form_data : str := lit "search_form_data".

Definition form_data_of (post : Post.t) : FormData :=
  mkFormData (Post.recipe_name post) (Post.ingredients post)
             (Post.cooking_time_max post) (Post.difficulty post).

(** [recipe_search] for a user who is logged in.  [charts_of] stands for
    the drawing of the three charts from the records found; [dotall] and
    [table] are the database. *)
Definition recipe_search {Charts : Type} (charts_of : list Recipe -> Charts)
           (dotall : bool) (table : list Recipe)
           (req : request) (session : gmap str (svalue Charts))
  : view_result (response Charts * gmap str (svalue Charts)) :=
  match req with
  | POST post =>
      match recipe_search_queryset post with
      | Raise e => Failed e
      | Ok qs =>
          match run dotall table qs with
          | None => Outside_model
          | Some found =>
              match found with
              | _ :: _ =>
                  let recipes := map recipe_row found in
                  let charts := charts_of found in
                  let session :=
                    <[search_recipes := VRecipes recipes]> session in
                  let session :=
                    <[search_charts := VCharts charts]> session in
                  let session :=
                    <[search_form_data := VForm (form_data_of post)]>
                      session in
                  Returned (Redirect (lit "#search-results"), session)
              | [] =>
                  let session :=
                    <[search_form_data := VForm (form_data_of post)]>
                      session in
                  Returned (Redirect (lit "#no-recipes-found"), session)
              end
          end
      end
  | GET =>
      match session !! search_recipes with
      | Some recipes =>
          let session := delete search_recipes session in
          match session !! search_charts with
          | None => KeyError
          | Some charts =>
              let session := delete search_charts session in
              let form_data := session !! search_form_data in
              let session := delete search_form_data session in
              Returned (Render (Initial form_data) (Some recipes) (Some charts),
                        session)
          end
      | None => Returned (Render Unbound None None, session)
      end
  end.


End View.

(** ** Further notions for the properties *)

(** A character that cannot be part of an ingredient: whitespace or a
    comma. *)
Definition space_or_comma (c : ascii) : bool :=
  isspace c || Ascii.eqb c ",".

(** The four criteria of a search are all absent or empty. *)
Definition no_criteria (post : Post.t) : bool :=
  negb (match Post.recipe_name post with Some s => truthy s | None => false end)
  && negb (match Post.ingredients post with Some s => truthy s | None => false end)
  && negb (match Post.cooking_time_max post with Some s => truthy s | None => false end)
  && negb (match Post.difficulty post with Some s => truthy s | None => false end).


(** Two records that differ at most in the letter case of their names and
    ingredients. *)
Definition same_but_case (r r' : Recipe) : Prop :=
  map lower (name r) = map lower (name r')
  /\ option_map (map lower) (ingredients r)
     = option_map (map lower) (ingredients r')
  /\ cooking_time r = cooking_time r'
  /\ difficulty r = difficulty r'.

(** * Properties *)

(** ** Strings *)

Section StringFacts.

Lemma lstrip_split (s : str) :
  exists l, s = l ++ lstrip s /\ blank l = true.
Proof.
  induction s as [|c s [l [E B]]]; simpl.
  - exists []. auto.
  - destruct (isspace c) eqn:W.
    + exists (c :: l). simpl. rewrite W, B. split; [congruence | reflexivity].
    + exists []. auto.
Qed.

Lemma lstrip_head (s : str) c s' : lstrip s = c :: s' -> isspace c = false.
Proof.
  induction s as [|d s IH]; simpl; [discriminate|].
  destruct (isspace d) eqn:W; [exact IH|].
  intros [= -> _]. exact W.
Qed.

Lemma lstrip_blank (s : str) : lstrip s = [] <-> blank s = true.
Proof.
  induction s as [|c s IH]; simpl; [tauto|].
  destruct (isspace c); simpl; [exact IH|]. split; discriminate.
Qed.

Lemma blank_app (a b : str) : blank (a ++ b) = blank a && blank b.
Proof. apply forallb_app. Qed.

Lemma blank_rev (s : str) : blank (rev s) = blank s.
Proof.
  induction s as [|c s IH]; simpl; [reflexivity|].
  rewrite blank_app, IH. simpl. rewrite andb_true_r. apply andb_comm.
Qed.

Lemma rstrip_split (s : str) :
  exists r, s = rstrip s ++ r /\ blank r = true.
Proof.
  unfold rstrip. destruct (lstrip_split (rev s)) as [l [E B]].
  exists (rev l). split.
  - rewrite <- rev_app_distr, <- E. symmetry. apply rev_involutive.
  - rewrite blank_rev. exact B.
Qed.

Lemma rstrip_last (s : str) c s' : rstrip s = s' ++ [c] -> isspace c = false.
Proof.
  unfold rstrip. intros E.
  apply (f_equal (@rev ascii)) in E.
  rewrite rev_involutive, rev_app_distr in E. simpl in E.
  exact (lstrip_head _ _ _ E).
Qed.

(** [strip] removes a run of whitespace at each end and nothing else. *)
Lemma strip_split (s : str) :
  exists l r, s = l ++ strip s ++ r /\ blank l = true /\ blank r = true.
Proof.
  destruct (lstrip_split s) as [l [El Bl]].
  destruct (rstrip_split (lstrip s)) as [r [Er Br]].
  exists l, r. unfold strip. rewrite <- Er. auto.
Qed.

Lemma strip_trimmed (s : str) : trimmed (strip s).
Proof.
  split; intros c s' E.
  - destruct (rstrip_split (lstrip s)) as [r [Er _]].
    unfold strip in E. rewrite E in Er. simpl in Er.
    exact (lstrip_head _ _ _ Er).
  - exact (rstrip_last _ _ _ E).
Qed.

Lemma strip_nil (s : str) : strip s = [] <-> blank s = true.
Proof.
  destruct (strip_split s) as [l [r [E [Bl Br]]]]. split.
  - intros N. rewrite N in E. simpl in E. rewrite E, blank_app, Bl, Br. reflexivity.
  - intros B. unfold strip, rstrip.
    apply lstrip_blank in B. rewrite B. reflexivity.
Qed.

Lemma truthy_strip (s : str) : truthy (strip s) = negb (blank s).
Proof.
  destruct (blank s) eqn:B.
  - apply strip_nil in B. rewrite B. reflexivity.
  - destruct (strip s) eqn:E; [|reflexivity].
    apply strip_nil in E. congruence.
Qed.

Lemma char_in_app c (a b : str) : char_in c (a ++ b) = char_in c a || char_in c b.
Proof. apply existsb_app. Qed.

Lemma strip_char_in c (s : str) : char_in c s = false -> char_in c (strip s) = false.
Proof.
  destruct (strip_split s) as [l [r [E _]]]. intros H.
  rewrite E, !char_in_app in H.
  apply orb_false_elim in H as [_ H].
  apply orb_false_elim in H as [H _]. exact H.
Qed.

Lemma split_not_nil sep (s : str) : split sep s <> [].
Proof.
  induction s as [|c s IH]; simpl; [discriminate|].
  destruct (Ascii.eqb c sep); [discriminate|].
  destruct (split sep s); [contradiction | discriminate].
Qed.

(** [split] cuts at every separator and loses nothing. *)
Lemma join_split sep (s : str) : join sep (split sep s) = s.
Proof.
  induction s as [|c s IH]; simpl; [reflexivity|].
  destruct (Ascii.eqb_spec c sep) as [->|N].
  - pose proof (split_not_nil sep s) as NN.
    destruct (split sep s) as [|g gs]; [contradiction|].
    simpl. simpl in IH. rewrite IH. reflexivity.
  - pose proof (split_not_nil sep s) as NN.
    destruct (split sep s) as [|g gs]; [contradiction|].
    simpl in *. destruct gs; simpl; rewrite <- IH; reflexivity.
Qed.

Lemma split_no_sep sep (s : str) :
  Forall (fun g => char_in sep g = false) (split sep s).
Proof.
  induction s as [|c s IH]; simpl.
  - constructor; [reflexivity | constructor].
  - destruct (Ascii.eqb_spec c sep) as [->|N].
    + constructor; [reflexivity | exact IH].
    + destruct (split sep s) as [|g gs].
      * constructor; [|constructor]. simpl.
        destruct (Ascii.eqb_spec sep c); [congruence | reflexivity].
      * inversion IH as [|? ? Hg Hgs]; subst. constructor; [|exact Hgs].
        simpl. rewrite Hg.
        destruct (Ascii.eqb_spec sep c); [congruence | reflexivity].
Qed.

Lemma blank_no_sep sep (s : str) :
  isspace sep = false -> blank s = true -> split sep s = [s].
Proof.
  intros Hs. induction s as [|c s IH]; simpl; [reflexivity|].
  intros B. apply andb_prop in B as [Bc Bs].
  destruct (Ascii.eqb_spec c sep) as [->|N]; [congruence|].
  rewrite (IH Bs). reflexivity.
Qed.

End StringFacts.

(** ** The model *)

Lemma difficulty_of_cases (t : Z) (n : nat) :
  difficulty_of t n
  = Some (if (t <? 10)%Z
          then if n <? 4 then lit "Easy" else lit "Medium"
          else if n <? 4 then lit "Intermediate" else lit "Hard").
Proof.
  unfold difficulty_of.
  destruct (Z.ltb_spec t 10), (Z.leb_spec 10 t); try lia;
    destruct (Nat.ltb_spec n 4), (Nat.leb_spec 4 n); try lia; reflexivity.
Qed.

(** C1.  For every cooking time and every ingredient count the classifier
    returns exactly one of Easy, Medium, Intermediate and Hard, by the
    table: below 10 minutes and below 4 ingredients Easy; below 10 and at
    least 4 Medium; at least 10 and below 4 Intermediate; at least 10 and
    at least 4 Hard.  The boundary values 9, 10 and 3, 4 fall as the table
    says, and [calculate_difficulty] is this classifier on the record's
    cooking time and the length of its ingredient list. *)
Theorem difficulty_of_table (t : Z) (n : nat) :
  ((t < 10)%Z /\ n < 4 -> difficulty_of t n = Some (lit "Easy"))
  /\ ((t < 10)%Z /\ 4 <= n -> difficulty_of t n = Some (lit "Medium"))
  /\ ((10 <= t)%Z /\ n < 4 -> difficulty_of t n = Some (lit "Intermediate"))
  /\ ((10 <= t)%Z /\ 4 <= n -> difficulty_of t n = Some (lit "Hard"))
  /\ (exists l, In l labels /\ difficulty_of t n = Some l
                /\ forall l', difficulty_of t n = Some l' -> l' = l)
  /\ difficulty_of 9 3 = Some (lit "Easy")
  /\ difficulty_of 9 4 = Some (lit "Medium")
  /\ difficulty_of 10 3 = Some (lit "Intermediate")
  /\ difficulty_of 10 4 = Some (lit "Hard")
  /\ (forall self : Recipe,
        cooking_time self = t ->
        length (return_ingredients_as_list self) = n ->
        calculate_difficulty self = difficulty_of t n).
Proof.
  assert (B : forall a b, difficulty_of a b = Some (lit "Easy")
              \/ difficulty_of a b = Some (lit "Medium")
              \/ difficulty_of a b = Some (lit "Intermediate")
              \/ difficulty_of a b = Some (lit "Hard")).
  { intros a b. rewrite difficulty_of_cases.
    destruct (a <? 10)%Z, (b <? 4); tauto. }
  repeat split; try reflexivity.
  - intros [Ht Hn]. rewrite difficulty_of_cases.
    destruct (Z.ltb_spec t 10), (Nat.ltb_spec n 4); try lia; reflexivity.
  - intros [Ht Hn]. rewrite difficulty_of_cases.
    destruct (Z.ltb_spec t 10), (Nat.ltb_spec n 4); try lia; reflexivity.
  - intros [Ht Hn]. rewrite difficulty_of_cases.
    destruct (Z.ltb_spec t 10), (Nat.ltb_spec n 4); try lia; reflexivity.
  - intros [Ht Hn]. rewrite difficulty_of_cases.
    destruct (Z.ltb_spec t 10), (Nat.ltb_spec n 4); try lia; reflexivity.
  - unfold labels.
    destruct (B t n) as [E | [E | [E | E]]]; rewrite E; eexists;
      (split; [| split; [reflexivity | intros l' [= <-]; reflexivity]]);
      simpl; tauto.
  - intros self E1 E2. unfold calculate_difficulty. rewrite E1, E2. reflexivity.
Qed.

Lemma comma_not_space : isspace ","%char = false.
Proof. reflexivity. Qed.

Lemma filter_truthy_strip (segs : list str) :
  List.filter (fun g => truthy (strip g)) segs
  = List.filter (fun g => negb (blank g)) segs.
Proof.
  apply List.filter_ext. intros g. apply truthy_strip.
Qed.

(** The ingredients of a list that [return_ingredients_as_list] returns
    are not empty, carry no whitespace at their ends and no comma. *)
Lemma ingredient_shape (segs : list str) :
  Forall (fun g => char_in "," g = false) segs ->
  Forall (fun x => x <> [] /\ trimmed x /\ char_in "," x = false)
         (map strip (List.filter (fun g => truthy (strip g)) segs)).
Proof.
  induction 1 as [|g gs Hg _ IH]; simpl; [constructor|].
  destruct (strip g) eqn:E; simpl; [exact IH|].
  constructor; [|exact IH]. repeat split.
  - congruence.
  - apply strip_trimmed.
  - apply strip_trimmed.
  - apply strip_char_in, Hg.
Qed.

(** C2.  The ingredient parser is total.  On [None] and on a string that
    is empty or whitespace only it returns the empty list.  Otherwise the
    string is cut at its commas (the segments joined by commas give the
    string back, and no segment holds a comma), each segment is trimmed,
    the segments that are whitespace only are dropped, and the others are
    kept in their order, repeats included.  Every ingredient returned is
    non-empty, trimmed and free of commas. *)
Theorem return_ingredients_as_list_spec (self : Recipe) :
  (ingredients self = None -> return_ingredients_as_list self = [])
  /\ (forall s, ingredients self = Some s -> blank s = true ->
        return_ingredients_as_list self = [])
  /\ (forall s, ingredients self = Some s -> blank s = false ->
        exists segs,
          join "," segs = s
          /\ Forall (fun g => char_in "," g = false) segs
          /\ return_ingredients_as_list self
             = map strip (List.filter (fun g => negb (blank g)) segs))
  /\ Forall (fun x => x <> [] /\ trimmed x /\ char_in "," x = false)
            (return_ingredients_as_list self).
Proof.
  unfold return_ingredients_as_list.
  destruct (ingredients self) as [s|]; [|repeat split; try discriminate; constructor].
  split; [discriminate|]. split; [|split].
  - intros s' [= <-] B. rewrite truthy_strip, B. simpl.
    rewrite orb_true_r. reflexivity.
  - intros s' [= <-] B. rewrite truthy_strip, B. simpl.
    assert (T : truthy s = true) by (destruct s; [discriminate | reflexivity]).
    rewrite T. simpl.
    exists (split "," s). split; [apply join_split|].
    split; [apply split_no_sep|].
    rewrite filter_truthy_strip. reflexivity.
  - destruct (negb (truthy s) || negb (truthy (strip s))); [constructor|].
    apply ingredient_shape, split_no_sep.
Qed.

(** ** The store's lookups *)

Section StoreFacts.

Lemma in_tails (x s : str) : In x (tails s) <-> exists a, s = a ++ x.
Proof.
  induction s as [|c s IH]; simpl.
  - split.
    + intros [<- | []]. exists []. reflexivity.
    + intros [a E]. symmetry in E. apply app_eq_nil in E as [_ ->]. auto.
  - split.
    + intros [<- | H]; [exists []; reflexivity|].
      apply IH in H as [a ->]. exists (c :: a). reflexivity.
    + intros [[|d a] E]; simpl in E; [left; congruence|].
      injection E as -> ->. right. apply IH. eauto.
Qed.

Lemma prefix_ci_spec (t s : str) :
  prefix_ci t s = true
  <-> exists m b, s = m ++ b /\ map lower m = map lower t.
Proof.
  revert s. induction t as [|a t IH]; intros s; simpl.
  - split; [|reflexivity]. intros _. exists [], s. auto.
  - destruct s as [|c s].
    + split; [discriminate|]. intros (m & b & E & M).
      symmetry in E. apply app_eq_nil in E as [-> _]. discriminate.
    + unfold eq_ci. rewrite andb_true_iff, IH. split.
      * intros [A (m & b & -> & M)].
        apply Ascii.eqb_eq in A.
        exists (c :: m), b. simpl. rewrite M, A. auto.
      * intros ([|d m] & b & E & M); simpl in *; [discriminate|].
        injection E as -> ->. injection M as A M.
        split; [apply Ascii.eqb_eq; congruence | eauto].
Qed.

(** [icontains] is the occurrence of the term as a substring, letter
    case ignored. *)
Lemma icontains_spec (t s : str) :
  icontains t s = true
  <-> exists a m b, s = a ++ m ++ b /\ map lower m = map lower t.
Proof.
  unfold icontains. rewrite existsb_exists. split.
  - intros (x & I & P). apply in_tails in I as [a ->].
    apply prefix_ci_spec in P as (m & b & -> & M). eauto.
  - intros (a & m & b & -> & M). exists (m ++ b). split.
    + apply in_tails. eauto.
    + apply prefix_ci_spec. eauto.
Qed.

Lemma icontains_nil (s : str) : icontains [] s = true.
Proof. destruct s; reflexivity. Qed.

Lemma re_search_unfold d re (s : str) :
  re_search d re s
  = match_here d re s
    || match s with [] => false | _ :: s' => re_search d re s' end.
Proof. unfold re_search. destruct s; simpl; [rewrite orb_false_r|]; reflexivity. Qed.



(** *** The translation of wildcards *)

Lemma replace_tr (t : str) :
  replace "?" (lit ".") (replace "*" (lit ".*") t) = flat_map tr t.
Proof.
  unfold replace. induction t as [|c t IH]; [reflexivity|].
  cbn [flat_map]. rewrite flat_map_app, IH. f_equal. unfold tr.
  destruct (Ascii.eqb c "*"); [reflexivity|]. cbn [flat_map].
  apply app_nil_r.
Qed.

Lemma tr_head (t : str) :
  match flat_map tr t with
  | c :: _ => Ascii.eqb c "*" = false
  | [] => True
  end.
Proof.
  destruct t as [|c t]; simpl; [exact I|]. unfold tr.
  destruct (Ascii.eqb c "*") eqn:S; [reflexivity|].
  destruct (Ascii.eqb c "?"); [reflexivity|]. exact S.
Qed.

Lemma compile_cons (c : ascii) (rest : str) :
  Ascii.eqb c "*" = false -> is_meta c = false ->
  match rest with c' :: _ => Ascii.eqb c' "*" = false | [] => True end ->
  compile (c :: rest)
  = option_map (cons (mkPiece (if Ascii.eqb c "." then Dot else Lit c) false))
               (compile rest).
Proof.
  intros S M H. cbn [compile]. rewrite S, M. cbn [orb].
  destruct rest as [|c' rest]; [reflexivity|]. rewrite H. reflexivity.
Qed.

(** A term free of special characters compiles to its wildcards. *)
Lemma compile_tr (t : str) :
  forallb plain_or_wildcard t = true ->
  compile (flat_map tr t) = Some (map glob_piece t).
Proof.
  induction t as [|c t IH]; [reflexivity|].
  cbn [forallb flat_map map]. intros H. apply andb_prop in H as [P H].
  specialize (IH H). pose proof (tr_head t) as Hd.
  unfold tr at 1, glob_piece at 1. unfold plain_or_wildcard in P.
  destruct (Ascii.eqb c "*") eqn:S.
  - cbn. rewrite IH. reflexivity.
  - destruct (Ascii.eqb c "?") eqn:Q.
    + cbn [lit list_ascii_of_string app].
      rewrite compile_cons, IH; auto.
    + cbn [orb] in P. apply andb_prop in P as [M D].
      apply negb_true_iff in M, D. cbn [app].
      rewrite compile_cons, IH, D; auto.
Qed.

Lemma match_here_star d a re (s : str) :
  match_here d (mkPiece a true :: re) s
  = match_here d re s
    || match s with
       | [] => false
       | c :: s' => atom_ok d a c && match_here d (mkPiece a true :: re) s'
       end.
Proof. destruct s; reflexivity. Qed.






End StoreFacts.

(** ** The wildcard translation *)







Lemma filter_all {A} (f : A -> bool) (l : list A) :
  (forall x, f x = true) -> List.filter f l = l.
Proof.
  intros H. induction l as [|x l IH]; simpl; [reflexivity|].
  rewrite H, IH. reflexivity.
Qed.

(** C10.  A term that is not empty and holds whitespace only is not
    translated to [None]: it gives the substring test for the empty
    string, which every record passes, so that a search with this name
    and no other criterion returns the whole table. *)
Theorem whitespace_term_matches_everything (search_term : str) :
  search_term <> [] -> blank search_term = true ->
  process_wildcard_search (Some search_term) = Some (name__icontains [])
  /\ (forall dotall r, holds dotall (name__icontains []) r = true)
  /\ (forall dotall table,
        recipe_search dotall table
          (Post.mk (Some (lit "search")) (Some search_term) None None None)
        = Rendered (recipe_search_rows table)).
Proof.
  intros N B.
  assert (E : process_wildcard_search (Some search_term)
              = Some (name__icontains [])).
  { unfold process_wildcard_search.
    destruct search_term; [congruence|]. cbn [truthy negb].
    apply strip_nil in B. rewrite B. reflexivity. }
  split; [exact E|]. split.
  - intros dotall r. apply icontains_nil.
  - intros dotall table. unfold recipe_search, recipe_search_queryset.
    cbn [Post.search_action Post.recipe_name Post.ingredients
         Post.cooking_time_max Post.difficulty].
    replace (is_search (Some (lit "search"))) with true by reflexivity.
    destruct search_term; [congruence|]. cbn [truthy]. rewrite E.
    unfold run. cbn [app forallb supported andb].
    rewrite filter_all; [reflexivity|].
    intros r. cbn. rewrite icontains_nil. reflexivity.
Qed.

Lemma whitespace_term_matches_everything_witness :
  process_wildcard_search (Some (lit "   ")) = Some (name__icontains [])
  /\ (forall dotall r, holds dotall (name__icontains []) r = true)
  /\ (forall dotall table,
        recipe_search dotall table
          (Post.mk (Some (lit "search")) (Some (lit "   ")) None None None)
        = Rendered (recipe_search_rows table)).
Proof.
  apply (whitespace_term_matches_everything (lit "   "));
    [discriminate | reflexivity].
Defined.

(** ** The search *)

(** C5.  When the request's action is "show_all" no filter is applied,
    whatever name, ingredients, cooking time and difficulty come with it:
    the queryset is the whole table and every record is in the result. *)
Theorem show_all_ignores_criteria (dotall : bool) (table : list Recipe)
        (post : Post.t) :
  Post.search_action post = Some (lit "show_all") ->
  recipe_search_queryset post = Ok []
  /\ run dotall table [] = Some table
  /\ (forall r, forallb (fun c => holds dotall c r) [] = true)
  /\ recipe_search dotall table post = Rendered (recipe_search_rows table).
Proof.
  intros A.
  assert (Q : recipe_search_queryset post = Ok []).
  { unfold recipe_search_queryset. rewrite A. reflexivity. }
  assert (R : run dotall table [] = Some table).
  { unfold run. cbn [forallb]. rewrite filter_all; reflexivity. }
  repeat split; try assumption.
  unfold recipe_search. rewrite Q, R. reflexivity.
Qed.

Lemma show_all_ignores_criteria_witness :
  let post := Post.mk (Some (lit "show_all")) (Some (lit "pasta*"))
                      (Some (lit "tomato")) (Some (lit "abc"))
                      (Some (lit "Hard")) in
  recipe_search_queryset post = Ok []
  /\ run false sample_table [] = Some sample_table
  /\ (forall r, forallb (fun c => holds false c r) [] = true)
  /\ recipe_search false sample_table post
     = Rendered (recipe_search_rows sample_table).
Proof.
  apply (show_all_ignores_criteria false sample_table). reflexivity.
Defined.

Lemma filter_ingredient_cond (qs : QuerySet) (ingredient : str) :
  filter_ingredient qs ingredient = qs ++ [ingredient_cond ingredient].
Proof.
  unfold filter_ingredient, ingredient_cond.
  destruct (char_in "*" ingredient || char_in "?" ingredient); reflexivity.
Qed.

Lemma fold_filter_ingredient (toks : list str) (qs : QuerySet) :
  fold_left filter_ingredient toks qs = qs ++ map ingredient_cond toks.
Proof.
  revert qs. induction toks as [|t toks IH]; intros qs; simpl.
  - symmetry. apply app_nil_r.
  - rewrite IH, filter_ingredient_cond, <- app_assoc. reflexivity.
Qed.

(** The records a queryset returns are those of the table that pass every
    condition of it. *)
Lemma run_spec (dotall : bool) (table : list Recipe) (qs : QuerySet) found :
  run dotall table qs = Some found ->
  forall r, In r found
            <-> In r table /\ forall c, In c qs -> holds dotall c r = true.
Proof.
  unfold run. destruct (forallb supported qs); [|discriminate].
  intros [= <-] r. rewrite filter_In, forallb_forall. reflexivity.
Qed.

(** In a search the conditions of the posted ingredients are part of the
    queryset, between those of the name and those of the cooking time and
    the difficulty. *)
Lemma queryset_ingredients (post : Post.t) (s : str) (qs : QuerySet) :
  is_search (Post.search_action post) = true ->
  Post.ingredients post = Some s ->
  recipe_search_queryset post = Ok qs ->
  exists pre suf,
    qs = pre ++ map ingredient_cond (ingredient_list s) ++ suf
    /\ (Post.recipe_name post = None -> pre = [])
    /\ (Post.cooking_time_max post = None -> Post.difficulty post = None ->
        suf = []).
Proof.
  intros A I. unfold recipe_search_queryset. rewrite A, I.
  set (pre := match Post.recipe_name post with
              | Some recipe_name =>
                  if truthy recipe_name
                  then match process_wildcard_search (Some recipe_name) with
                       | Some name_query => [] ++ [name_query]
                       | None => []
                       end
                  else []
              | None => []
              end).
  assert (P : Post.recipe_name post = None -> pre = []).
  { intros E. unfold pre. rewrite E. reflexivity. }
  assert (M : (if truthy s
               then fold_left filter_ingredient (ingredient_list s) pre
               else pre)
              = pre ++ map ingredient_cond (ingredient_list s)).
  { destruct s as [|c s]; cbn [truthy].
    - symmetry. apply app_nil_r.
    - apply fold_filter_ingredient. }
  rewrite M. clearbody pre.
  destruct (Post.cooking_time_max post) as [t|], (Post.difficulty post) as [d|];
    repeat match goal with
           | |- context [truthy ?x] => destruct (truthy x)
           | |- context [int ?x] => destruct (int x)
           end;
    intros [= <-];
    first [ exists pre, []; split; [rewrite app_nil_r; reflexivity|]
          | eexists pre, _; split; [rewrite <- ?app_assoc; reflexivity|] ];
    (split; [exact P|]); first [discriminate | intros _; discriminate | auto].
Qed.

(** C6.  In a search the posted ingredients are cut at the commas,
    trimmed, and the empty pieces dropped; each remaining piece adds one
    condition on the ingredients column, a case-insensitive substring
    test, or a pattern search when the piece holds [*] or [?]; a record is
    returned only if it passes the condition of every piece.  With no
    other criterion the records returned are exactly those.  For
    "tomato,cheese" they are exactly the records whose ingredients hold
    both "tomato" and "cheese" as substrings, letter case ignored. *)
Theorem ingredients_filter_is_conjunction
        (dotall : bool) (table : list Recipe) (post : Post.t)
        (s : str) (qs : QuerySet) (found : list Recipe) :
  is_search (Post.search_action post) = true ->
  Post.ingredients post = Some s ->
  recipe_search_queryset post = Ok qs ->
  run dotall table qs = Some found ->
  (forall tok, In tok (ingredient_list s) ->
     tok <> [] /\ trimmed tok /\ char_in "," tok = false
     /\ In (ingredient_cond tok) qs
     /\ (char_in "*" tok || char_in "?" tok = false ->
         ingredient_cond tok = ingredients__icontains tok))
  /\ (forall r, In r found ->
        In r table
        /\ forall tok, In tok (ingredient_list s) ->
                       holds dotall (ingredient_cond tok) r = true)
  /\ (Post.recipe_name post = None ->
      Post.cooking_time_max post = None ->
      Post.difficulty post = None ->
      forall r, In r found
                <-> In r table
                    /\ forall tok, In tok (ingredient_list s) ->
                                   holds dotall (ingredient_cond tok) r = true)
  /\ (forall tbl,
        let both r :=
          match ingredients r with
          | Some i => icontains (lit "tomato") i && icontains (lit "cheese") i
          | None => false
          end in
        recipe_search dotall tbl
          (Post.mk (Some (lit "search")) None (Some (lit "tomato,cheese"))
                   None None)
        = Rendered (recipe_search_rows (List.filter both tbl))
        /\ forall r, In r (List.filter both tbl)
                     <-> In r tbl
                         /\ exists i, ingredients r = Some i
                                      /\ occurs_ci (lit "tomato") i
                                      /\ occurs_ci (lit "cheese") i).
Proof.
  intros A I Q R.
  destruct (queryset_ingredients post s qs A I Q) as (pre & suf & E & Pn & Sn).
  pose proof (run_spec dotall table qs found R) as RS.
  assert (Sh : Forall (fun x => x <> [] /\ trimmed x /\ char_in "," x = false)
                      (ingredient_list s))
    by apply ingredient_shape, split_no_sep.
  rewrite List.Forall_forall in Sh.
  assert (Iq : forall tok, In tok (ingredient_list s) ->
                           In (ingredient_cond tok) qs).
  { intros tok T. rewrite E, !in_app_iff. right. left.
    apply in_map, T. }
  split; [|split; [|split]].
  - intros tok T. destruct (Sh tok T) as (S1 & S2 & S3).
    repeat split; try assumption; try apply S2; auto.
    intros W. unfold ingredient_cond. rewrite W. reflexivity.
  - intros r F. apply RS in F as [F H]. split; [exact F|].
    intros tok T. apply H, Iq, T.
  - intros N1 N2 N3 r. rewrite (Pn N1), (Sn N2 N3), app_nil_r in E.
    simpl in E. rewrite RS, E. split; intros [F H]; (split; [exact F|]).
    + intros tok T. apply H, in_map, T.
    + intros c C. apply in_map_iff in C as (tok & <- & T). apply H, T.
  - intros tbl both. split.
    + assert (Qs : recipe_search_queryset
                     (Post.mk (Some (lit "search")) None
                              (Some (lit "tomato,cheese")) None None)
                   = Ok [ingredients__icontains (lit "tomato");
                         ingredients__icontains (lit "cheese")])
        by (vm_compute; reflexivity).
      unfold recipe_search. rewrite Qs. unfold run.
      cbn [forallb supported andb]. f_equal. f_equal.
      apply List.filter_ext. intros r. unfold both. cbn [holds].
      destruct (ingredients r); [|reflexivity]. rewrite andb_true_r.
      reflexivity.
    + intros r. rewrite filter_In. unfold both. split.
      * intros [T B]. split; [exact T|].
        destruct (ingredients r) as [i|]; [|discriminate].
        apply andb_prop in B as [B1 B2].
        exists i. split; [reflexivity|].
        split; apply icontains_spec; assumption.
      * intros [T (i & -> & O1 & O2)]. split; [exact T|].
        apply andb_true_intro. split; apply icontains_spec; assumption.
Qed.

Lemma ingredients_filter_is_conjunction_witness :
  In pizza_margherita
     (List.filter
        (fun r =>
           match ingredients r with
           | Some i => icontains (lit "tomato") i && icontains (lit "cheese") i
           | None => false
           end) sample_table).
Proof.
  pose (post := Post.mk (Some (lit "search")) None
                        (Some (lit "tomato,cheese")) None None).
  pose proof (ingredients_filter_is_conjunction
                false sample_table post (lit "tomato,cheese")
                [ingredients__icontains (lit "tomato");
                 ingredients__icontains (lit "cheese")]
                [pizza_margherita]
                eq_refl eq_refl eq_refl eq_refl) as (_ & _ & _ & H).
  destruct (H sample_table) as [_ H']. apply H'. split.
  - simpl. tauto.
  - eexists. split; [reflexivity|].
    split; apply icontains_spec; reflexivity.
Defined.

(** C7.  A search whose maximal cooking time is posted as "abc" is not
    turned away: the view hands the posted text to [int], which raises
    [ValueError], and nothing catches it.  The same happens for every
    posted text that is not empty and that [int] does not read. *)
Theorem non_numeric_cooking_time_crashes (dotall : bool) (table : list Recipe) :
  int (lit "abc") = None
  /\ recipe_search_queryset
       (Post.mk (Some (lit "search")) None None (Some (lit "abc")) None)
     = Raise ValueError
  /\ recipe_search dotall table
       (Post.mk (Some (lit "search")) None None (Some (lit "abc")) None)
     = Crashed ValueError
  /\ (forall post t,
        is_search (Post.search_action post) = true ->
        Post.cooking_time_max post = Some t ->
        t <> [] -> int t = None ->
        recipe_search dotall table post = Crashed ValueError).
Proof.
  repeat split; try reflexivity.
  intros post t A C N V. unfold recipe_search, recipe_search_queryset.
  rewrite A, C, V. destruct t; [congruence | reflexivity].
Qed.

(** ** Saving *)

Lemma calculate_difficulty_some (self : Recipe) :
  exists l, In l labels /\ calculate_difficulty self = Some l.
Proof.
  unfold calculate_difficulty. rewrite difficulty_of_cases. unfold labels.
  destruct (cooking_time self <? 10)%Z,
           (length (return_ingredients_as_list self) <? 4);
    eexists; (split; [|reflexivity]); simpl; tauto.
Qed.




(** ** The rows of the result *)

(** The count the view computes in line is the length of the parsed
    ingredient list. *)
Lemma ingredient_count_parsed (recipe : Recipe) :
  ingredient_count recipe = length (return_ingredients_as_list recipe).
Proof.
  unfold ingredient_count, return_ingredients_as_list.
  destruct (ingredients recipe) as [s|]; [|reflexivity].
  destruct (truthy s) eqn:T; cbn [negb orb]; [|reflexivity].
  destruct (truthy (strip s)) eqn:B; cbn [negb]; [reflexivity|].
  rewrite truthy_strip in B. apply negb_false_iff in B.
  rewrite (blank_no_sep "," s comma_not_space B). cbn [List.filter].
  rewrite truthy_strip, B. reflexivity.
Qed.

(** C9, as the code has it.  For a queryset with at least one record the
    view makes one row per record, in the order of the records; a row
    carries the record's fields, and its ingredient count is the length of
    the ingredient list parsed from the record's ingredients at that
    moment.  For a queryset without records no list is made: [recipes]
    stays [None]. *)
Theorem recipe_search_rows_spec (qs : list Recipe) :
  (qs = [] -> recipe_search_rows qs = None)
  /\ (qs <> [] ->
      exists recipes,
        recipe_search_rows qs = Some recipes
        /\ length recipes = length qs
        /\ forall i recipe,
             nth_error qs i = Some recipe ->
             exists row,
               nth_error recipes i = Some row
               /\ row_id row = id recipe
               /\ row_name row = name recipe
               /\ row_cooking_time row = cooking_time recipe
               /\ row_difficulty row = difficulty recipe
               /\ row_ingredients row = ingredients recipe
               /\ row_short_description row = short_description recipe
               /\ row_ingredient_count row
                  = length (return_ingredients_as_list recipe)).
Proof.
  split; [intros ->; reflexivity|].
  intros N. exists (map recipe_row qs). split; [|split].
  - destruct qs; [congruence | reflexivity].
  - apply length_map.
  - intros i recipe H. exists (recipe_row recipe). split.
    + apply map_nth_error, H.
    + repeat split. apply ingredient_count_parsed.
Qed.

Lemma recipe_search_rows_spec_witness :
  exists recipes,
    recipe_search_rows sample_table = Some recipes
    /\ map row_ingredient_count recipes = [4; 4; 4]
    /\ map row_id recipes = [Some 1; Some 2; Some 3].
Proof.
  destruct (proj2 (recipe_search_rows_spec sample_table) ltac:(discriminate))
    as (recipes & E & _).
  exists recipes. split; [exact E|].
  injection E as <-. split; reflexivity.
Defined.

(** C9, as the claim words it, fails on the empty queryset: the view makes
    no empty list of rows, it leaves [recipes] at [None]; so does a whole
    search on an empty table. *)
Lemma no_rows_is_none :
  recipe_search_rows [] = None
  /\ recipe_search false []
       (Post.mk (Some (lit "show_all")) None None None None)
     = Rendered None.
Proof. split; reflexivity. Qed.

(** * Further properties *)

(** ** More on strings *)

Lemma falsy_or_blank (s : str) :
  negb (truthy s) || negb (truthy (strip s)) = blank s.
Proof.
  rewrite truthy_strip, negb_involutive.
  destruct s as [|c s]; [reflexivity|]. reflexivity.
Qed.

Lemma lstrip_pad (a s : str) : blank a = true -> lstrip (a ++ s) = lstrip s.
Proof.
  induction a as [|c a IH]; simpl; [reflexivity|].
  intros B. apply andb_prop in B as [Bc Ba]. rewrite Bc. exact (IH Ba).
Qed.

Lemma lstrip_id (s : str) :
  (forall c s', s = c :: s' -> isspace c = false) -> lstrip s = s.
Proof.
  destruct s as [|c s]; [reflexivity|]. intros H. simpl.
  rewrite (H c s eq_refl). reflexivity.
Qed.

Lemma rstrip_pad (s b : str) : blank b = true -> rstrip (s ++ b) = rstrip s.
Proof.
  intros B. unfold rstrip. rewrite rev_app_distr, lstrip_pad; [reflexivity|].
  rewrite blank_rev. exact B.
Qed.

Lemma rstrip_id (s : str) :
  (forall c s', s = s' ++ [c] -> isspace c = false) -> rstrip s = s.
Proof.
  intros H. unfold rstrip. rewrite lstrip_id; [apply rev_involutive|].
  intros c s' E. apply (H c (rev s')).
  rewrite <- (rev_involutive s), E. reflexivity.
Qed.

(** Trimming undoes any padding with whitespace. *)
Lemma strip_pad (a x b : str) :
  blank a = true -> blank b = true -> trimmed x -> strip (a ++ x ++ b) = x.
Proof.
  intros Ba Bb [Th Tl]. unfold strip. rewrite lstrip_pad by exact Ba.
  destruct x as [|c x].
  - simpl. apply lstrip_blank in Bb as E.
    assert (L : lstrip b = []) by exact E.
    rewrite L. reflexivity.
  - rewrite lstrip_id.
    + rewrite rstrip_pad by exact Bb. apply rstrip_id, Tl.
    + intros d s' [= <- _]. exact (Th c x eq_refl).
Qed.

Lemma blank_no_char (c : ascii) (s : str) :
  isspace c = false -> blank s = true -> char_in c s = false.
Proof.
  intros N. induction s as [|d s IH]; simpl; [reflexivity|].
  intros B. apply andb_prop in B as [Bd Bs]. rewrite (IH Bs), orb_false_r.
  destruct (Ascii.eqb_spec c d); [congruence | reflexivity].
Qed.

(** Cutting what was joined gives the pieces back. *)
Lemma split_join sep (segs : list str) :
  segs <> [] -> Forall (fun g => char_in sep g = false) segs ->
  PyStr.split sep (join sep segs) = segs.
Proof.
  intros N F. induction F as [|g gs Hg _ IH]; [congruence|]. clear N.
  assert (A : forall (g : str) (rest : list str),
             char_in sep g = false -> rest <> [] ->
             PyStr.split sep (g ++ sep :: join sep rest)
             = g :: PyStr.split sep (join sep rest)).
  { clear. intros g rest Hg _. induction g as [|c g IH]; simpl.
    - rewrite Ascii.eqb_refl. reflexivity.
    - simpl in Hg. apply orb_false_elim in Hg as [Hc Hg].
      rewrite Ascii.eqb_sym, Hc, (IH Hg). reflexivity. }
  destruct gs as [|g' gs].
  - simpl. clear IH. induction g as [|c g IH]; simpl; [reflexivity|].
    simpl in Hg. apply orb_false_elim in Hg as [Hc Hg].
    rewrite Ascii.eqb_sym, Hc, (IH Hg). reflexivity.
  - change (join sep (g :: g' :: gs)) with (g ++ sep :: join sep (g' :: gs)).
    rewrite A, IH; [reflexivity | discriminate | exact Hg | discriminate].
Qed.

Lemma forallb_split (f : ascii -> bool) sep (s : str) :
  forallb f s = true -> Forall (fun g => forallb f g = true) (PyStr.split sep s).
Proof.
  induction s as [|c s IH]; simpl.
  - intros _. constructor; [reflexivity | constructor].
  - intros H. apply andb_prop in H as [Hc Hs]. specialize (IH Hs).
    destruct (Ascii.eqb c sep).
    + constructor; [reflexivity | exact IH].
    + destruct (PyStr.split sep s) as [|g gs].
      * constructor; [simpl; rewrite Hc; reflexivity | constructor].
      * inversion IH as [|? ? Hg Hgs]; subst.
        constructor; [simpl; rewrite Hc, Hg; reflexivity | exact Hgs].
Qed.

Lemma forallb_join (f : ascii -> bool) sep (segs : list str) :
  f sep = true -> Forall (fun g => forallb f g = true) segs ->
  forallb f (join sep segs) = true.
Proof.
  intros Hs. induction 1 as [|g gs Hg _ IH]; [reflexivity|].
  destruct gs as [|g' gs]; [exact Hg|].
  change (join sep (g :: g' :: gs)) with (g ++ sep :: join sep (g' :: gs)).
  rewrite forallb_app, Hg. simpl forallb at 1. rewrite Hs. exact IH.
Qed.

Lemma filter_nil_iff {A} (f : A -> bool) (l : list A) :
  List.filter f l = [] <-> Forall (fun x => f x = false) l.
Proof.
  induction l as [|x l IH]; simpl.
  - split; [constructor | reflexivity].
  - destruct (f x) eqn:E; split.
    + discriminate.
    + intros H. inversion H; congruence.
    + intros H. constructor; [exact E | apply IH, H].
    + intros H. inversion H; subst. apply IH. assumption.
Qed.

Lemma space_or_comma_blank (g : str) :
  forallb space_or_comma g = true -> char_in "," g = false -> blank g = true.
Proof.
  induction g as [|c g IH]; [reflexivity|].
  unfold blank, char_in in *. cbn [forallb existsb].
  intros H N. apply andb_prop in H as [Hc Hg].
  apply orb_false_elim in N as [Nc Ng]. rewrite (IH Hg Ng), andb_true_r.
  unfold space_or_comma in Hc. rewrite Ascii.eqb_sym, Nc, orb_false_r in Hc.
  exact Hc.
Qed.

Lemma blank_space_or_comma (g : str) :
  blank g = true -> forallb space_or_comma g = true.
Proof.
  induction g as [|c g IH]; [reflexivity|].
  unfold blank in *. cbn [forallb].
  intros H. apply andb_prop in H as [Hc Hg].
  unfold space_or_comma at 1. rewrite Hc, (IH Hg). reflexivity.
Qed.

(** ** More on the ingredient parser *)

(** X1.  The ingredient list of a record is empty exactly when the record
    has no ingredients string or the string holds nothing but whitespace
    and commas. *)
Theorem return_ingredients_as_list_nil (self : Recipe) :
  return_ingredients_as_list self = []
  <-> match ingredients self with
      | None => True
      | Some s => forallb space_or_comma s = true
      end.
Proof.
  unfold return_ingredients_as_list.
  destruct (ingredients self) as [s|]; [|tauto].
  rewrite falsy_or_blank. destruct (blank s) eqn:B.
  - split; [intros _; apply blank_space_or_comma, B | reflexivity].
  - rewrite filter_truthy_strip. split.
    + intros E. apply map_eq_nil in E. apply filter_nil_iff in E.
      rewrite <- (join_split "," s). apply forallb_join; [reflexivity|].
      eapply List.Forall_impl; [|exact E]. cbn beta.
      intros g Hg. apply negb_false_iff in Hg.
      apply blank_space_or_comma, Hg.
    + intros H. apply (forallb_split _ ","%char) in H.
      pose proof (split_no_sep ","%char s) as N.
      assert (E : List.filter (fun g => negb (blank g)) (PyStr.split "," s) = []).
      { apply filter_nil_iff.
        induction H as [|g gs Hg _ IH]; [constructor|].
        inversion N; subst. constructor; [|apply IH; assumption].
        apply negb_false_iff, space_or_comma_blank; assumption. }
      rewrite E. reflexivity.
Qed.

Lemma trimmed_intro (x : str) :
  match x with [] => true | c :: _ => negb (isspace c) end = true ->
  match rev x with [] => true | c :: _ => negb (isspace c) end = true ->
  trimmed x.
Proof.
  intros H T. split; intros c s' E; subst x.
  - apply negb_true_iff, H.
  - rewrite rev_app_distr in T. apply negb_true_iff, T.
Qed.

(** X2.  Writing ingredients out with commas between them, each with any
    whitespace around it, and parsing the text gives the ingredients
    back, in order and with repeats: for ingredients that are not empty,
    carry no whitespace at their ends and hold no comma. *)
Theorem return_ingredients_as_list_join
        (self : Recipe) (items : list (str * str * str)) :
  Forall (fun i => blank i.1.1 = true /\ blank i.2 = true
                   /\ i.1.2 <> [] /\ trimmed i.1.2
                   /\ char_in "," i.1.2 = false) items ->
  ingredients self
  = Some (join "," (map (fun i => i.1.1 ++ i.1.2 ++ i.2) items)) ->
  return_ingredients_as_list self = map (fun i => i.1.2) items.
Proof.
  intros F I. unfold return_ingredients_as_list. rewrite I.
  rewrite falsy_or_blank. unfold str in *.
  destruct items as [|i items]; [reflexivity|].
  set (segs := map (fun i => i.1.1 ++ i.1.2 ++ i.2) (i :: items)).
  assert (Fs : Forall (fun g => char_in "," g = false) segs).
  { unfold segs. apply List.Forall_map.
    eapply List.Forall_impl; [|exact F]. cbn beta.
    intros [[a x] b] (Ba & Bb & _ & _ & Nx). cbn [fst snd] in *.
    rewrite !char_in_app, Nx,
      (blank_no_char _ a comma_not_space Ba),
      (blank_no_char _ b comma_not_space Bb). reflexivity. }
  assert (St : forall j, In j (i :: items) ->
                         strip (j.1.1 ++ j.1.2 ++ j.2) = j.1.2 /\ j.1.2 <> []).
  { rewrite List.Forall_forall in F. intros j Hj.
    destruct (F j Hj) as (Ba & Bb & Nx & Tx & _).
    split; [apply strip_pad; assumption | exact Nx]. }
  assert (Nb : blank (join "," segs) = false).
  { destruct (St i (or_introl eq_refl)) as [Si Ni].
    destruct (blank (join "," segs)) eqn:B; [|reflexivity]. exfalso.
    assert (Bi : blank (i.1.1 ++ i.1.2 ++ i.2) = true).
    { unfold segs in B. cbn [map] in B.
      destruct (map (fun i => i.1.1 ++ i.1.2 ++ i.2) items) as [|g gs].
      - exact B.
      - change (join "," ((i.1.1 ++ i.1.2 ++ i.2) :: g :: gs))
          with ((i.1.1 ++ i.1.2 ++ i.2) ++ ","%char :: join "," (g :: gs)) in B.
        rewrite blank_app in B. apply andb_prop in B as [B _]. exact B. }
    apply strip_nil in Bi. congruence. }
  rewrite Nb, split_join; [|discriminate | exact Fs].
  unfold segs. revert St. generalize (i :: items). clear.
  intros l. induction l as [|j l IH]; intros St; [reflexivity|].
  destruct (St j (or_introl eq_refl)) as [Sj Nj].
  cbn [map List.filter]. rewrite Sj.
  destruct (j.1.2) eqn:E; [congruence|]. cbn [truthy map]. rewrite Sj.
  f_equal. apply IH. intros k Hk. apply St. right. exact Hk.
Qed.

Lemma return_ingredients_as_list_join_witness :
  return_ingredients_as_list
    (recipe_of 1 "Pasta al Pesto" " pasta ,pesto,  cheese" 10 "")
  = [lit "pasta"; lit "pesto"; lit "cheese"].
Proof.
  apply (return_ingredients_as_list_join
           (recipe_of 1 "Pasta al Pesto" " pasta ,pesto,  cheese" 10 "")
           [(lit " ", lit "pasta", lit " "); ([], lit "pesto", []);
            (lit "  ", lit "cheese", [])]).
  - repeat (apply List.Forall_cons;
            [cbn [fst snd];
             repeat match goal with |- _ /\ _ => split end;
             try reflexivity; try discriminate;
             apply trimmed_intro; reflexivity |]).
    apply List.Forall_nil.
  - reflexivity.
Defined.

(** ** Validation *)

Lemma clean_cases (self : Recipe) :
  clean self
  = match ingredients self with
    | Some s =>
        if blank s
        then Invalid (lit "ingredients") (lit "Ingredients cannot be empty.")
        else if blank (name self)
        then Invalid (lit "name") (lit "Recipe name cannot be empty.")
        else if (cooking_time self <=? 0)%Z
        then Invalid (lit "cooking_time")
                     (lit "Cooking time must be greater than 0.")
        else Valid
    | None => Invalid (lit "ingredients") (lit "Ingredients cannot be empty.")
    end.
Proof.
  unfold clean. rewrite falsy_or_blank.
  destruct (ingredients self); [rewrite falsy_or_blank|]; reflexivity.
Qed.

(** X3.  [clean] accepts a record exactly when its ingredients are
    present and not blank, its name is not blank and its cooking time is
    positive.  It reports the first failure only, in the order
    ingredients, name, cooking time. *)
Theorem clean_spec (self : Recipe) :
  (clean self = Valid
   <-> (exists s, ingredients self = Some s /\ blank s = false)
       /\ blank (name self) = false
       /\ (0 < cooking_time self)%Z)
  /\ ((forall s, ingredients self = Some s -> blank s = true) ->
      clean self = Invalid (lit "ingredients")
                           (lit "Ingredients cannot be empty."))
  /\ ((exists s, ingredients self = Some s /\ blank s = false) ->
      blank (name self) = true ->
      clean self = Invalid (lit "name") (lit "Recipe name cannot be empty."))
  /\ ((exists s, ingredients self = Some s /\ blank s = false) ->
      blank (name self) = false ->
      (cooking_time self <= 0)%Z ->
      clean self = Invalid (lit "cooking_time")
                           (lit "Cooking time must be greater than 0.")).
Proof.
  rewrite clean_cases.
  destruct (ingredients self) as [s|].
  - destruct (blank s) eqn:Bs, (blank (name self)) eqn:Bn,
             (Z.leb_spec (cooking_time self) 0) as [T|T];
      repeat match goal with
             | |- _ /\ _ => split
             | |- _ <-> _ => split
             end;
      intros;
      repeat match goal with
             | H : exists _, _ |- _ => destruct H as (? & ? & ?)
             | H : _ /\ _ |- _ => destruct H
             | H : Some _ = Some _ |- _ => injection H as <-
             | H : forall s', Some _ = Some s' -> _ |- _ =>
                 specialize (H _ eq_refl)
             end;
      try congruence; try lia; try reflexivity; eauto.
  - repeat match goal with
           | |- _ /\ _ => split
           | |- _ <-> _ => split
           end;
      intros;
      repeat match goal with
             | H : exists _, _ |- _ => destruct H as (? & ? & ?)
             | H : _ /\ _ |- _ => destruct H
             end;
      try congruence; reflexivity.
Qed.




(** X5.  [clean] does not ask for an ingredient.  A record whose
    ingredients hold a comma and otherwise only commas and whitespace
    passes [clean] (given a name and a positive cooking time), although
    its ingredient list is empty; its difficulty is then Easy or
    Intermediate, by the cooking time alone. *)
Theorem clean_accepts_commas_only (self : Recipe) (s : str) :
  ingredients self = Some s ->
  forallb space_or_comma s = true -> char_in "," s = true ->
  blank (name self) = false -> (0 < cooking_time self)%Z ->
  clean self = Valid
  /\ return_ingredients_as_list self = []
  /\ calculate_difficulty self
     = Some (if (cooking_time self <? 10)%Z
             then lit "Easy" else lit "Intermediate").
Proof.
  intros I A C N T.
  assert (L : return_ingredients_as_list self = []).
  { apply return_ingredients_as_list_nil. rewrite I. exact A. }
  split; [|split; [exact L|]].
  - rewrite clean_cases, I, N.
    destruct (blank s) eqn:B.
    + rewrite (blank_no_char _ s comma_not_space B) in C. discriminate.
    + destruct (Z.leb_spec (cooking_time self) 0); [lia | reflexivity].
  - unfold calculate_difficulty. rewrite L, difficulty_of_cases. reflexivity.
Qed.

Lemma clean_accepts_commas_only_witness :
  clean (recipe_of 1 "Soup" " , ," 30 "") = Valid
  /\ return_ingredients_as_list (recipe_of 1 "Soup" " , ," 30 "") = []
  /\ calculate_difficulty (recipe_of 1 "Soup" " , ," 30 "")
     = Some (lit "Intermediate").
Proof.
  apply (clean_accepts_commas_only (recipe_of 1 "Soup" " , ," 30 "")
                                   (lit " , ,"));
    [reflexivity | reflexivity | reflexivity | reflexivity | cbn; lia].
Defined.

(** X6.  The validators of the cooking-time field accept exactly the
    values from 1 to 1440; they never give two messages for one value;
    and [clean]'s own test of the cooking time rejects no value that they
    accept and accepts none that the lower bound rejects. *)
Theorem cooking_time_validators_spec (value : Z) :
  (cooking_time_validators value = [] <-> (1 <= value <= 1440)%Z)
  /\ length (cooking_time_validators value) <= 1
  /\ ((value <=? 0)%Z = true
      <-> In (lit "Cooking time must be at least 1 minute")
             (cooking_time_validators value)).
Proof.
  unfold cooking_time_validators.
  destruct (Z.ltb_spec value 1) as [L1|L1],
           (Z.ltb_spec 1440 value) as [L2|L2],
           (Z.leb_spec value 0) as [L3|L3];
    try lia; cbn [app length In];
    repeat match goal with
           | |- _ /\ _ => split
           | |- _ <-> _ => split
           end;
    try lia; try reflexivity; try discriminate; auto;
    intros [E | E]; try discriminate E; try contradiction;
    try (destruct E as [E | E]; [discriminate E | contradiction]).
Qed.

(** ** Template filters *)

Lemma split_by_char (c : ascii) (s : str) :
  RecipeExtras.split_by [c] 0 s = PyStr.split c s.
Proof.
  induction s as [|x s IH]; [reflexivity|].
  cbn [RecipeExtras.split_by RecipeExtras.startswith PyStr.split length].
  change (1 - 1) with 0.
  rewrite andb_true_r, Ascii.eqb_sym, IH. reflexivity.
Qed.

Lemma stripped_shape (segs : list str) :
  Forall (fun x => x <> [] /\ trimmed x)
         (map strip (List.filter (fun g => truthy (strip g)) segs)).
Proof.
  induction segs as [|g gs IH]; cbn [List.filter map]; [constructor|].
  destruct (strip g) eqn:E; cbn [truthy map]; [exact IH|].
  constructor; [|exact IH]. split; [congruence | apply strip_trimmed].
Qed.

(** X7.  The template filter [split] raises [ValueError] on an empty
    delimiter.  With any other delimiter every item it returns is
    non-empty and carries no whitespace at its ends.  With the comma it
    returns the list that the model's [return_ingredients_as_list] and the
    search view compute for the same text, so the three always show the
    same ingredients and the same count. *)
Theorem split_filter_spec (self : Recipe) (value delimiter : str) :
  RecipeExtras.split value [] = Raise ValueError
  /\ (delimiter <> [] ->
      exists items,
        RecipeExtras.split value delimiter = Ok items
        /\ Forall (fun x => x <> [] /\ trimmed x) items)
  /\ RecipeExtras.split value (lit ",") = Ok (ingredient_list value)
  /\ (ingredients self = Some value ->
      RecipeExtras.split value (lit ",")
      = Ok (return_ingredients_as_list self)
      /\ ingredient_count self = length (ingredient_list value)).
Proof.
  assert (C : RecipeExtras.split value (lit ",") = Ok (ingredient_list value)).
  { unfold RecipeExtras.split, ingredient_list. cbn [lit list_ascii_of_string].
    rewrite split_by_char. reflexivity. }
  split; [reflexivity|]. split; [|split; [exact C|]].
  - intros N. destruct delimiter as [|d ds]; [congruence|].
    eexists. split; [reflexivity | apply stripped_shape].
  - intros I. rewrite C, ingredient_count_parsed.
    assert (E : return_ingredients_as_list self = ingredient_list value).
    { unfold return_ingredients_as_list, ingredient_list. rewrite I.
      rewrite falsy_or_blank. destruct (blank value) eqn:B; [|reflexivity].
      rewrite (blank_no_sep "," value comma_not_space B).
      cbn [List.filter]. rewrite truthy_strip, B. reflexivity. }
    rewrite E. split; reflexivity.
Qed.

Lemma startswith_truthy (p s : str) :
  p <> [] -> RecipeExtras.startswith p s = true -> truthy s = true.
Proof.
  destruct p as [|a p]; [congruence|]. intros _.
  destruct s; [discriminate | reflexivity].
Qed.

(** X8.  When [static] gives addresses that begin with "http" or with
    "/static", the filter [media_to_static] leaves its own results alone:
    applied twice it gives what it gives applied once.  An address that
    already begins so is returned unchanged. *)
Theorem media_to_static_idempotent (static : str -> str) (image_path : str) :
  (forall p, RecipeExtras.startswith (lit "http") (static p)
             || RecipeExtras.startswith (lit "/static") (static p) = true) ->
  RecipeExtras.media_to_static static
    (RecipeExtras.media_to_static static image_path)
  = RecipeExtras.media_to_static static image_path
  /\ (RecipeExtras.startswith (lit "http") image_path
      || RecipeExtras.startswith (lit "/static") image_path = true ->
      RecipeExtras.media_to_static static image_path = image_path).
Proof.
  intros S.
  assert (F : forall u,
             RecipeExtras.startswith (lit "http") u
             || RecipeExtras.startswith (lit "/static") u = true ->
             RecipeExtras.media_to_static static u = u).
  { intros u H. unfold RecipeExtras.media_to_static. rewrite H.
    assert (T : truthy u = true).
    { apply orb_prop in H as [H | H];
        eapply startswith_truthy; try exact H; discriminate. }
    rewrite T. reflexivity. }
  split; [|apply F].
  apply F. unfold RecipeExtras.media_to_static.
  destruct (negb (truthy image_path)); [apply S|].
  destruct (RecipeExtras.startswith (lit "http") image_path
            || RecipeExtras.startswith (lit "/static") image_path) eqn:H;
    [exact H | apply S].
Qed.

Lemma media_to_static_idempotent_witness :
  let static := fun p => lit "/static/" ++ p in
  RecipeExtras.media_to_static static
    (RecipeExtras.media_to_static static (lit "recipes/image.jpg"))
  = lit "/static/images/recipes/image.jpg".
Proof.
  intros static.
  rewrite (proj1 (media_to_static_idempotent static (lit "recipes/image.jpg")
                    (fun p => eq_refl))).
  reflexivity.
Defined.

(** ** More on the search *)

Lemma filter_sublist {A} (f : A -> bool) (l : list A) :
  sublist (List.filter f l) l.
Proof.
  induction l as [|x l IH]; cbn [List.filter]; [constructor|].
  destruct (f x); [apply sublist_skip | apply sublist_cons]; exact IH.
Qed.

Lemma map_sublist {A B} (f : A -> B) (l k : list A) :
  sublist l k -> sublist (map f l) (map f k).
Proof.
  induction 1; cbn [map]; [constructor | apply sublist_skip | apply sublist_cons];
    assumption.
Qed.

Lemma str_eqb_eq (a b : str) : str_eqb a b = true <-> a = b.
Proof.
  revert b. induction a as [|x a IH]; intros [|y b]; cbn [str_eqb].
  1: tauto.
  1, 2: split; discriminate.
  rewrite andb_true_iff, Ascii.eqb_eq, IH. split.
  - intros [-> ->]. reflexivity.
  - intros [= -> ->]. auto.
Qed.

Lemma rendered_rows dotall table post rows :
  recipe_search dotall table post = Rendered (Some rows) ->
  exists qs found,
    recipe_search_queryset post = Ok qs
    /\ run dotall table qs = Some found
    /\ found <> [] /\ rows = map recipe_row found.
Proof.
  unfold recipe_search.
  destruct (recipe_search_queryset post) as [qs|e]; [|discriminate].
  destruct (run dotall table qs) as [found|] eqn:F; [|discriminate].
  destruct found as [|r found]; [discriminate|].
  intros [= <-]. exists qs, (r :: found).
  split; [reflexivity|]. split; [exact F|].
  split; [discriminate | reflexivity].
Qed.

Lemma all_rows dotall table post :
  is_search (Post.search_action post) = false ->
  recipe_search dotall table post = Rendered (recipe_search_rows table).
Proof.
  intros A. unfold recipe_search, recipe_search_queryset. rewrite A.
  unfold run. cbn [forallb]. rewrite filter_all by reflexivity. reflexivity.
Qed.

(** X9.  A search only narrows the table.  The rows shown are rows of
    records of the table, in the table's order, none shown more often
    than it is in the table; so every search shows a sublist of what
    "show_all" shows. *)
Theorem search_narrows (dotall : bool) (table : list Recipe) (post : Post.t)
        (rows : list Row) :
  recipe_search dotall table post = Rendered (Some rows) ->
  sublist rows (map recipe_row table)
  /\ length rows <= length table
  /\ exists all,
       recipe_search dotall table
         (Post.mk (Some (lit "show_all")) None None None None)
       = Rendered (Some all)
       /\ sublist rows all.
Proof.
  intros R. destruct (rendered_rows _ _ _ _ R) as (qs & found & _ & F & N & ->).
  assert (S : sublist found table).
  { unfold run in F. destruct (forallb supported qs); [|discriminate].
    injection F as <-. apply filter_sublist. }
  assert (M : sublist (map recipe_row found) (map recipe_row table))
    by exact (map_sublist recipe_row _ _ S).
  split; [exact M|]. split.
  - rewrite <- (length_map recipe_row table).
    apply sublist_length, M.
  - exists (map recipe_row table). split; [|exact M].
    rewrite all_rows by reflexivity.
    destruct table as [|r table]; [|reflexivity].
    apply sublist_nil_r in S. congruence.
Qed.

Lemma search_narrows_witness :
  sublist [recipe_row pizza_margherita; recipe_row summer_salad]
          (map recipe_row sample_table).
Proof.
  apply (search_narrows false sample_table
           (Post.mk (Some (lit "search")) None (Some (lit "tomato")) None None)).
  reflexivity.
Defined.

(** X10.  A search without criteria is "show_all": when the name, the
    ingredients, the cooking time and the difficulty are each absent or
    empty, the search returns the whole table. *)
Theorem search_without_criteria (dotall : bool) (table : list Recipe)
        (post : Post.t) :
  no_criteria post = true ->
  recipe_search_queryset post = Ok []
  /\ recipe_search dotall table post = Rendered (recipe_search_rows table)
  /\ recipe_search dotall table post
     = recipe_search dotall table
         (Post.mk (Some (lit "show_all")) (Post.recipe_name post)
                  (Post.ingredients post) (Post.cooking_time_max post)
                  (Post.difficulty post)).
Proof.
  intros N. unfold no_criteria in N.
  repeat (apply andb_prop in N as [N ?]).
  assert (Q : recipe_search_queryset post = Ok []).
  { unfold recipe_search_queryset.
    destruct (is_search (Post.search_action post)); [|reflexivity].
    destruct (Post.recipe_name post) as [[|? ?]|],
             (Post.ingredients post) as [[|? ?]|],
             (Post.cooking_time_max post) as [[|? ?]|],
             (Post.difficulty post) as [[|? ?]|];
      try discriminate; reflexivity. }
  split; [exact Q|].
  assert (R : recipe_search dotall table post
              = Rendered (recipe_search_rows table)).
  { unfold recipe_search. rewrite Q. unfold run. cbn [forallb].
    rewrite filter_all by reflexivity. reflexivity. }
  split; [exact R|]. rewrite R, all_rows; reflexivity.
Qed.

Lemma search_without_criteria_witness :
  recipe_search false sample_table
    (Post.mk (Some (lit "search")) (Some []) (Some []) None (Some []))
  = Rendered (recipe_search_rows sample_table).
Proof.
  apply (search_without_criteria false sample_table
           (Post.mk (Some (lit "search")) (Some []) (Some []) None (Some []))).
  reflexivity.
Defined.

(** In a search the conditions of the posted cooking time and of the
    posted difficulty are part of the queryset. *)
Lemma queryset_time_difficulty (post : Post.t) (qs : QuerySet) :
  is_search (Post.search_action post) = true ->
  recipe_search_queryset post = Ok qs ->
  (forall t, Post.cooking_time_max post = Some t -> truthy t = true ->
             exists n, int t = Some n /\ In (cooking_time__lte n) qs)
  /\ (forall d, Post.difficulty post = Some d -> truthy d = true ->
                In (difficulty__exact d) qs).
Proof.
  intros A. unfold recipe_search_queryset. rewrite A.
  destruct (Post.recipe_name post) as [rn|];
    [destruct (truthy rn);
     [destruct (process_wildcard_search (Some rn))|]|];
    (destruct (Post.ingredients post) as [ig|]; [destruct (truthy ig)|]);
    (destruct (Post.cooking_time_max post) as [t|];
     [destruct (truthy t) eqn:Tt; [destruct (int t) eqn:It|]|]);
    (destruct (Post.difficulty post) as [d|];
     [destruct (truthy d) eqn:Td|]);
    intros [= <-];
    (split; [intros t0 E T | intros d0 E T]);
    try discriminate E; injection E as <-; try congruence;
    try (eexists; split; [eassumption|]);
    rewrite ?in_app_iff; cbn [In]; auto 6.
Qed.

(** X11.  Every record a search shows meets the posted cooking time and
    the posted difficulty: when a maximal cooking time is posted, [int]
    reads it as some [n] and every row has a cooking time of at most [n];
    when a difficulty is posted, every row has exactly that difficulty. *)
Theorem search_respects_time_and_difficulty
        (dotall : bool) (table : list Recipe) (post : Post.t)
        (rows : list Row) :
  is_search (Post.search_action post) = true ->
  recipe_search dotall table post = Rendered (Some rows) ->
  (forall t, Post.cooking_time_max post = Some t -> t <> [] ->
             exists n, int t = Some n
                       /\ Forall (fun row => (row_cooking_time row <= n)%Z) rows)
  /\ (forall d, Post.difficulty post = Some d -> d <> [] ->
                Forall (fun row => row_difficulty row = Some d) rows).
Proof.
  intros A R.
  destruct (rendered_rows _ _ _ _ R) as (qs & found & Q & F & _ & ->).
  destruct (queryset_time_difficulty post qs A Q) as [HT HD].
  pose proof (run_spec dotall table qs found F) as RS.
  split.
  - intros t E N.
    destruct (HT t E) as (n & In' & Hn); [destruct t; [congruence | reflexivity]|].
    exists n. split; [exact In'|].
    apply List.Forall_map, List.Forall_forall. intros r Hr.
    apply RS in Hr as [_ Hr]. specialize (Hr _ Hn).
    cbn [holds] in Hr. cbn [recipe_row row_cooking_time].
    apply Z.leb_le, Hr.
  - intros d E N.
    assert (Hd : In (difficulty__exact d) qs)
      by (apply HD; [exact E | destruct d; [congruence | reflexivity]]).
    apply List.Forall_map, List.Forall_forall. intros r Hr.
    apply RS in Hr as [_ Hr]. specialize (Hr _ Hd).
    cbn [holds] in Hr. cbn [recipe_row row_difficulty].
    destruct (difficulty r) as [x|]; [|discriminate].
    apply str_eqb_eq in Hr. congruence.
Qed.

Lemma search_respects_time_and_difficulty_witness :
  exists n, int (lit "10") = Some n
            /\ Forall (fun row => (row_cooking_time row <= n)%Z)
                      [recipe_row pasta_al_pesto; recipe_row pizza_margherita].
Proof.
  apply (proj1 (search_respects_time_and_difficulty
                  false sample_table
                  (Post.mk (Some (lit "search")) None None
                           (Some (lit "10")) None)
                  [recipe_row pasta_al_pesto; recipe_row pizza_margherita]
                  eq_refl eq_refl) (lit "10") eq_refl).
  discriminate.
Defined.





Lemma strip_id (x : str) : trimmed x -> strip x = x.
Proof.
  intros T. rewrite <- (strip_pad [] x [] eq_refl eq_refl T) at 2.
  cbn [app]. rewrite app_nil_r. reflexivity.
Qed.





(** ** More on wildcards *)

Lemma match_all_stars d (s : str) :
  forallb (Ascii.eqb "*") s = true ->
  forall x, match_here d (map glob_piece s) x = true.
Proof.
  induction s as [|c s IH]; intros A x; [reflexivity|].
  cbn [forallb] in A. apply andb_prop in A as [Ac As].
  apply Ascii.eqb_eq in Ac. subst c.
  change (map glob_piece ("*"%char :: s))
    with (mkPiece Dot true :: map glob_piece s).
  rewrite match_here_star, (IH As). reflexivity.
Qed.

(** X14.  A name made of stars only, however many, finds every recipe:
    the pattern it becomes matches the empty start of every name. *)
Theorem stars_match_everything (search_term : str) :
  search_term <> [] -> forallb (Ascii.eqb "*") search_term = true ->
  exists q,
    process_wildcard_search (Some search_term) = Some q
    /\ supported q = true
    /\ (forall dotall r, holds dotall q r = true)
    /\ forall dotall table,
         recipe_search dotall table
           (Post.mk (Some (lit "search")) (Some search_term) None None None)
         = Rendered (recipe_search_rows table).
Proof.
  intros N A.
  assert (T : trimmed search_term).
  { assert (H : forall c, In c search_term -> isspace c = false).
    { intros c Hc. rewrite forallb_forall in A.
      specialize (A c Hc). apply Ascii.eqb_eq in A. subst c. reflexivity. }
    split; intros c s' ->; apply H;
      [left; reflexivity | apply in_app_iff; right; left; reflexivity]. }
  assert (W : char_in "*" search_term = true).
  { destruct search_term as [|c s]; [congruence|].
    cbn [forallb] in A. apply andb_prop in A as [Ac _].
    unfold char_in. cbn [existsb]. rewrite Ac. reflexivity. }
  assert (P : forallb plain_or_wildcard search_term = true).
  { apply forallb_forall. intros c Hc. rewrite forallb_forall in A.
    specialize (A c Hc). apply Ascii.eqb_eq in A. subst c. reflexivity. }
  assert (E : process_wildcard_search (Some search_term)
              = Some (name__iregex (flat_map tr search_term))).
  { unfold process_wildcard_search. rewrite (strip_id _ T), W, replace_tr.
    destruct search_term; [congruence | reflexivity]. }
  assert (S : supported (name__iregex (flat_map tr search_term)) = true).
  { cbn [supported]. rewrite (compile_tr _ P). reflexivity. }
  assert (H : forall dotall r,
             holds dotall (name__iregex (flat_map tr search_term)) r = true).
  { intros dotall r. cbn [holds]. unfold iregex. rewrite (compile_tr _ P).
    rewrite re_search_unfold, (match_all_stars _ _ A). reflexivity. }
  eexists. split; [exact E|]. split; [exact S|]. split; [exact H|].
  intros dotall table. unfold recipe_search, recipe_search_queryset.
  cbn [Post.search_action Post.recipe_name Post.ingredients
       Post.cooking_time_max Post.difficulty].
  replace (is_search (Some (lit "search"))) with true by reflexivity.
  destruct search_term as [|c s]; [congruence|]. cbn [truthy]. rewrite E.
  unfold run. cbn [app forallb]. rewrite S. cbn [andb].
  rewrite filter_all; [reflexivity|].
  intros r. cbn [forallb]. rewrite H. reflexivity.
Qed.

Lemma stars_match_everything_witness :
  exists q,
    process_wildcard_search (Some (lit "**")) = Some q
    /\ supported q = true
    /\ (forall dotall r, holds dotall q r = true)
    /\ forall dotall table,
         recipe_search dotall table
           (Post.mk (Some (lit "search")) (Some (lit "**")) None None None)
         = Rendered (recipe_search_rows table).
Proof.
  apply (stars_match_everything (lit "**")); [discriminate | reflexivity].
Defined.

Lemma lower_newline (c : ascii) :
  Ascii.eqb (lower c) newline = Ascii.eqb c newline.
Proof.
  destruct c as [b0 b1 b2 b3 b4 b5 b6 b7].
  destruct b0, b1, b2, b3, b4, b5, b6, b7; reflexivity.
Qed.

Lemma atom_ok_lower d a (c c' : ascii) :
  lower c = lower c' -> atom_ok d a c = atom_ok d a c'.
Proof.
  intros E. destruct a as [l|]; cbn [atom_ok].
  - unfold eq_ci. rewrite E. reflexivity.
  - rewrite <- (lower_newline c), <- (lower_newline c'), E. reflexivity.
Qed.

Lemma match_here_lower d re :
  forall s s', map lower s = map lower s' ->
               match_here d re s = match_here d re s'.
Proof.
  induction re as [|p re IH]; intros s s' E; [reflexivity|].
  destruct p as [a [|]].
  - revert s' E. induction s as [|c s IHs]; intros [|c' s'] E;
      try discriminate E.
    + reflexivity.
    + rewrite (match_here_star d a re (c :: s)),
        (match_here_star d a re (c' :: s')).
      cbn [map] in E. injection E as Ec Es.
      rewrite (IH (c :: s) (c' :: s')) by (cbn [map]; congruence).
      rewrite (atom_ok_lower d a c c' Ec), (IHs s' Es). reflexivity.
  - cbn [match_here p_star p_atom].
    destruct s as [|c s], s' as [|c' s']; try discriminate E; [reflexivity|].
    cbn [map] in E. injection E as Ec Es.
    rewrite (atom_ok_lower d a c c' Ec), (IH s s' Es). reflexivity.
Qed.

Lemma re_search_lower d re :
  forall s s', map lower s = map lower s' ->
               re_search d re s = re_search d re s'.
Proof.
  induction s as [|c s IH]; intros [|c' s'] E; try discriminate E.
  - reflexivity.
  - rewrite (re_search_unfold d re (c :: s)),
      (re_search_unfold d re (c' :: s')).
    rewrite (match_here_lower d re (c :: s) (c' :: s') E).
    cbn [map] in E. injection E as _ Es. rewrite (IH s' Es). reflexivity.
Qed.

Lemma prefix_ci_lower (t : str) :
  forall s s', map lower s = map lower s' -> prefix_ci t s = prefix_ci t s'.
Proof.
  induction t as [|a t IH]; intros [|c s] [|c' s'] E; try discriminate E;
    try reflexivity.
  cbn [map] in E. injection E as Ec Es. cbn [prefix_ci].
  unfold eq_ci. rewrite Ec, (IH s s' Es). reflexivity.
Qed.

Lemma icontains_unfold (t s : str) :
  icontains t s
  = prefix_ci t s
    || match s with [] => false | _ :: s' => icontains t s' end.
Proof.
  unfold icontains. destruct s; cbn [tails existsb];
    [rewrite orb_false_r|]; reflexivity.
Qed.

Lemma icontains_lower (t : str) :
  forall s s', map lower s = map lower s' -> icontains t s = icontains t s'.
Proof.
  induction s as [|c s IH]; intros [|c' s'] E; try discriminate E.
  - reflexivity.
  - rewrite (icontains_unfold t (c :: s)), (icontains_unfold t (c' :: s')).
    rewrite (prefix_ci_lower t _ _ E).
    cbn [map] in E. injection E as _ Es. rewrite (IH s' Es). reflexivity.
Qed.

(** X15.  The search does not look at the letter case of what is stored:
    two records that differ only in the case of the letters A to Z in
    their names and ingredients pass the same conditions, so the same
    searches find them. *)
Theorem search_ignores_stored_case (dotall : bool) (c : cond) (r r' : Recipe) :
  same_but_case r r' -> holds dotall c r = holds dotall c r'.
Proof.
  intros (En & Ei & Et & Ed).
  assert (Ei' : match ingredients r, ingredients r' with
                | Some s, Some s' => map lower s = map lower s'
                | None, None => True
                | _, _ => False
                end).
  { destruct (ingredients r), (ingredients r'); cbn [option_map] in Ei;
      try discriminate Ei; [injection Ei as Ei; exact Ei | exact I]. }
  destruct c as [p|t|p|t|n|d]; cbn [holds].
  - unfold iregex. destruct (compile p); [|reflexivity].
    apply re_search_lower, En.
  - apply icontains_lower, En.
  - destruct (ingredients r), (ingredients r'); try contradiction;
      [|reflexivity].
    unfold iregex. destruct (compile p); [|reflexivity].
    apply re_search_lower, Ei'.
  - destruct (ingredients r), (ingredients r'); try contradiction;
      [|reflexivity].
    apply icontains_lower, Ei'.
  - rewrite Et. reflexivity.
  - rewrite Ed. reflexivity.
Qed.

Lemma search_ignores_stored_case_witness :
  holds false (name__iregex (lit "pasta.*")) (recipe_named (lit "PASTA al Pesto"))
  = holds false (name__iregex (lit "pasta.*")) (recipe_named (lit "pasta AL pesto")).
Proof.
  apply (search_ignores_stored_case false (name__iregex (lit "pasta.*"))
           (recipe_named (lit "PASTA al Pesto"))
           (recipe_named (lit "pasta AL pesto"))).
  repeat split.
Defined.

(** ** Colour schemes *)

Lemma get_color_scheme_cases (scheme_name : str) :
  (COLOR_SCHEMES !! scheme_name = None
   /\ get_color_scheme scheme_name = scheme_default)
  \/ (is_Some (COLOR_SCHEMES !! scheme_name)
      /\ In (get_color_scheme scheme_name)
            [scheme_default; scheme_pastel; scheme_brand; scheme_monochrome]).
Proof.
  unfold get_color_scheme, COLOR_SCHEMES. rewrite !lookup_insert.
  repeat case_decide; cbn [default In];
    first [ right; split; [eexists; reflexivity | tauto]
          | left; split; [apply lookup_empty | reflexivity] ].
Qed.

(** X16.  Every colour scheme that [get_color_scheme] can return, for a
    known name or, through the fallback to the default scheme, for any
    other, has a pie colour of its own for every difficulty that
    [calculate_difficulty] can give: the grey of the fallback is never
    used for a stored recipe. *)
Theorem pie_colors_cover_difficulties (scheme_name : str) (self : Recipe) :
  In (get_color_scheme scheme_name)
     [scheme_default; scheme_pastel; scheme_brand; scheme_monochrome]
  /\ (COLOR_SCHEMES !! scheme_name = None ->
      get_color_scheme scheme_name = scheme_default)
  /\ exists level colour,
       calculate_difficulty self = Some level
       /\ pie_colors (get_color_scheme scheme_name) !! level = Some colour
       /\ pie_color (get_color_scheme scheme_name) level = colour.
Proof.
  assert (M : In (get_color_scheme scheme_name)
                 [scheme_default; scheme_pastel; scheme_brand;
                  scheme_monochrome]).
  { destruct (get_color_scheme_cases scheme_name) as [[_ ->] | [_ H]];
      [left; reflexivity | exact H]. }
  split; [exact M|]. split.
  - intros N. unfold get_color_scheme. rewrite N. reflexivity.
  - destruct (calculate_difficulty_some self) as (l & Hl & El).
    exists l. unfold pie_color.
    assert (C : forall sch,
               In sch [scheme_default; scheme_pastel; scheme_brand;
                       scheme_monochrome] ->
               is_Some (pie_colors sch !! l)).
    { intros sch Hs. unfold labels in Hl. cbn [In] in Hs, Hl.
      destruct Hs as [<- | [<- | [<- | [<- | []]]]];
        destruct Hl as [<- | [<- | [<- | [<- | []]]]];
        vm_compute; eexists; reflexivity. }
    destruct (C _ M) as [colour Ec]. exists colour.
    rewrite Ec. auto.
Qed.

(** ** The session of the search view *)

Lemma keys_distinct :
  View.search_recipes <> View.search_charts
  /\ View.search_recipes <> View.search_form_data
  /\ View.search_charts <> View.search_form_data.
Proof. repeat split; discriminate. Qed.


Lemma posted_nothing {Charts : Type} (charts_of : list Recipe -> Charts)
      (dotall : bool) (table : list Recipe) (post : Post.t)
      (session : gmap str (View.svalue Charts)) :
  recipe_search dotall table post = Rendered None ->
  View.recipe_search charts_of dotall table (View.POST post) session
  = View.Returned
      (View.Redirect (lit "#no-recipes-found"),
       <[View.search_form_data := View.VForm (View.form_data_of post)]> session).
Proof.
  unfold recipe_search, View.recipe_search.
  destruct (recipe_search_queryset post) as [qs|e]; [|discriminate].
  destruct (run dotall table qs) as [[|r found]|]; try discriminate.
  reflexivity.
Qed.

Lemma get_stored {Charts : Type} (charts_of : list Recipe -> Charts)
      (dotall : bool) (table : list Recipe)
      (session : gmap str (View.svalue Charts))
      (recipes charts : View.svalue Charts) :
  session !! View.search_recipes = Some recipes ->
  session !! View.search_charts = Some charts ->
  View.recipe_search charts_of dotall table View.GET session
  = View.Returned
      (View.Render (View.Initial (session !! View.search_form_data))
                   (Some recipes) (Some charts),
       delete View.search_form_data
         (delete View.search_charts (delete View.search_recipes session))).
Proof.
  destruct keys_distinct as (K1 & K2 & K3).
  intros R C. unfold View.recipe_search. rewrite R.
  rewrite lookup_delete_ne by exact K1. rewrite C.
  rewrite !lookup_delete_ne by congruence. reflexivity.
Qed.




(** X18.  A search that finds nothing redirects to the "no recipes"
    message and stores only the posted values; it does not clear what an
    earlier search left.  If the session holds no results, the page that
    follows shows none and leaves the posted values in the session.  If
    the session still holds the results and charts of an earlier search,
    the page that follows shows those old results, with the new posted
    values in the form. *)
Theorem no_results_keeps_old {Charts : Type}
        (charts_of : list Recipe -> Charts)
        (dotall : bool) (table : list Recipe) (post : Post.t)
        (session : gmap str (View.svalue Charts)) :
  recipe_search dotall table post = Rendered None ->
  exists s1,
    View.recipe_search charts_of dotall table (View.POST post) session
    = View.Returned (View.Redirect (lit "#no-recipes-found"), s1)
    /\ s1 !! View.search_form_data
       = Some (View.VForm (View.form_data_of post))
    /\ s1 !! View.search_recipes = session !! View.search_recipes
    /\ s1 !! View.search_charts = session !! View.search_charts
    /\ (session !! View.search_recipes = None ->
        View.recipe_search charts_of dotall table View.GET s1
        = View.Returned (View.Render View.Unbound None None, s1))
    /\ (forall old old_charts,
          session !! View.search_recipes = Some old ->
          session !! View.search_charts = Some old_charts ->
          exists s2,
            View.recipe_search charts_of dotall table View.GET s1
            = View.Returned
                (View.Render
                   (View.Initial
                      (Some (View.VForm (View.form_data_of post))))
                   (Some old) (Some old_charts),
                 s2)).
Proof.
  destruct keys_distinct as (K1 & K2 & K3).
  intros R. eexists. split; [exact (posted_nothing charts_of _ _ _ session R)|].
  split; [apply lookup_insert_eq|].
  split; [apply lookup_insert_ne; congruence|].
  split; [apply lookup_insert_ne; congruence|].
  split.
  - intros N. unfold View.recipe_search.
    rewrite lookup_insert_ne by congruence. rewrite N. reflexivity.
  - intros old old_charts O C. eexists.
    rewrite (get_stored charts_of dotall table _ old old_charts).
    + rewrite lookup_insert_eq. reflexivity.
    + rewrite lookup_insert_ne by congruence. exact O.
    + rewrite lookup_insert_ne by congruence. exact C.
Qed.

Lemma no_results_keeps_old_witness :
  exists s1,
    View.recipe_search (fun _ => tt) false sample_table
      (View.POST (Post.mk (Some (lit "search")) (Some (lit "risotto"))
                          None None None))
      (<[View.search_charts := View.VCharts tt]>
         (<[View.search_recipes := View.VRecipes [recipe_row summer_salad]]> ∅))
    = View.Returned (View.Redirect (lit "#no-recipes-found"), s1)
    /\ exists s2,
         View.recipe_search (fun _ => tt) false sample_table View.GET s1
         = View.Returned
             (View.Render
                (View.Initial
                   (Some (View.VForm
                            (View.form_data_of
                               (Post.mk (Some (lit "search"))
                                        (Some (lit "risotto"))
                                        None None None)))))
                (Some (View.VRecipes [recipe_row summer_salad]))
                (Some (View.VCharts tt)),
              s2).
Proof.
  destruct (no_results_keeps_old (fun _ => tt) false sample_table
              (Post.mk (Some (lit "search")) (Some (lit "risotto"))
                       None None None)
              (<[View.search_charts := View.VCharts tt]>
                 (<[View.search_recipes
                    := View.VRecipes [recipe_row summer_salad]]> ∅))
              eq_refl) as (s1 & P & _ & _ & _ & _ & G).
  exists s1. split; [exact P|].
  apply G; reflexivity.
Defined.



(** X20.  The view touches three keys of the session and no other:
    whatever the request, every other key keeps its value. *)
Theorem session_other_keys {Charts : Type}
        (charts_of : list Recipe -> Charts)
        (dotall : bool) (table : list Recipe) (req : View.request)
        (session s' : gmap str (View.svalue Charts))
        (resp : View.response Charts) (k : str) :
  View.recipe_search charts_of dotall table req session
  = View.Returned (resp, s') ->
  k <> View.search_recipes -> k <> View.search_charts ->
  k <> View.search_form_data ->
  s' !! k = session !! k.
Proof.
  intros E N1 N2 N3. unfold View.recipe_search in E.
  destruct req as [|post].
  - destruct (session !! View.search_recipes); [|congruence].
    destruct (delete View.search_recipes session !! View.search_charts);
      [|discriminate].
    injection E as _ <-. rewrite !lookup_delete_ne by congruence.
    reflexivity.
  - destruct (recipe_search_queryset post) as [qs|e]; [|discriminate].
    destruct (run dotall table qs) as [[|r found]|]; try discriminate E;
      injection E as _ <-; rewrite !lookup_insert_ne by congruence;
      reflexivity.
Qed.

Lemma session_other_keys_witness :
  (<[View.search_form_data
     := View.VForm (View.form_data_of
                      (Post.mk (Some (lit "search")) (Some (lit "risotto"))
                               None None None))]>
     (<[lit "_auth_user_id" := View.VCharts tt]> ∅)
   : gmap str (View.svalue unit)) !! lit "_auth_user_id"
  = (<[lit "_auth_user_id" := View.VCharts tt]> ∅
     : gmap str (View.svalue unit)) !! lit "_auth_user_id".
Proof.
  apply (session_other_keys (fun _ => tt) false sample_table
           (View.POST (Post.mk (Some (lit "search")) (Some (lit "risotto"))
                               None None None))
           _ _ (View.Redirect (lit "#no-recipes-found")));
    [reflexivity | discriminate | discriminate | discriminate].
Defined.
